(** * BeejaFront: environment-aware request pipeline and diagnostics

    A shallow embedding of the browser-side helper layer:

    - [src/config/environment.js]  : environment resolution, [corsAwareFetch]
    - [src/utils/corsHandler.js]   : the [CORSErrorHandler] class
    - [src/services/apiConnector.js]: the axios pipeline with retry
    - [src/utils/apiDebugger.js]   : [testAdminAPI], [quickDiagnostic]
    - [src/components/common/DebugPanel.jsx] : the panel's state and handlers

    Conventions of the embedding.

    - JavaScript strings are [string]; [String.prototype.includes] is the
      executable substring test [includes].
    - JavaScript numbers that hold integers (status codes, milliseconds,
      attempt counters) are [Z].
    - An [async] function is its completion: [Normal v] for a promise that
      resolves with [v], [Throw e] for a promise that rejects with [e]
      ([e = None] is the JavaScript value [undefined]).
    - What the browser and the network decide (the location, the outcome of a
      [fetch], what the axios adapter reports, the clock) is an explicit
      argument of the function that observes it.
    - [console.*] output and the DOM notification of
      [showCORSErrorNotification] are not part of the model. *)

From Stdlib Require Import ZArith List String Ascii Bool Lia DecimalString.
Import ListNotations.

Open Scope string_scope.
Open Scope Z_scope.

Set Implicit Arguments.

(* ================================================================== *)
(** * Strings *)

Module JsString.

(** [sub] is an initial segment of [s]. *)
Fixpoint startsWith (s sub : string) {struct sub} : bool :=
  match sub with
  | EmptyString => true
  | String a sub' =>
      match s with
      | EmptyString => false
      | String b s' => Ascii.eqb a b && startsWith s' sub'
      end
  end.

(** [s.includes(sub)]: [sub] occurs in [s] as a contiguous run of
    characters, compared exactly (case matters). *)
Fixpoint includes (s sub : string) : bool :=
  startsWith s sub ||
  match s with
  | EmptyString => false
  | String _ rest => includes rest sub
  end.

(** The property [includes] decides. *)
Definition contains (s sub : string) : Prop :=
  exists pre post, s = String.append pre (String.append sub post).

(** Template-literal rendering of an integer, [`${n}`]. *)
Definition of_Z (n : Z) : string := NilZero.string_of_int (Z.to_int n).

(** ASCII lower-casing, used only to phrase case-insensitive matching. *)
Definition lower_ascii (c : ascii) : ascii :=
  let n := nat_of_ascii c in
  if (Nat.leb 65 n && Nat.leb n 90)%bool then ascii_of_nat (n + 32) else c.

Fixpoint toLowerCase (s : string) : string :=
  match s with
  | EmptyString => EmptyString
  | String c rest => String (lower_ascii c) (toLowerCase rest)
  end.

(** Case-insensitive substring matching. *)
Definition includes_ci (s sub : string) : bool :=
  includes (toLowerCase s) (toLowerCase sub).

End JsString.

Import JsString.

(* ================================================================== *)
(** * [src/config/environment.js] *)

Module Environment.

(** The part of [window.location] the module reads. *)
Record Location := {
  hostname : string;
  protocol : string;
  origin : string
}.

(** The object [getEnvironment] returns. *)
Record Env := {
  isDevelopment : bool;
  isProduction : bool;
  env_hostname : string;
  env_protocol : string;
  env_origin : string
}.

Definition getEnvironment (location : Location) : Env :=
  let hostname := hostname location in
  let protocol := protocol location in
  let isDevelopment :=
    String.eqb hostname "localhost" || String.eqb hostname "127.0.0.1" in
  let isProduction :=
    includes hostname "onrender.com" || includes hostname "netlify.app"
    || includes hostname "vercel.app" in
  {| isDevelopment := isDevelopment;
     isProduction := isProduction;
     env_hostname := hostname;
     env_protocol := protocol;
     env_origin := origin location |}.

(** One entry of [API_CONFIG]. *)
Record Settings := {
  s_BASE_URL : string;
  s_USE_PROXY : bool;
  s_TIMEOUT : Z;
  s_RETRY_ATTEMPTS : Z
}.

Module API_CONFIG.
Definition development : Settings :=
  {| s_BASE_URL := "http://localhost:4000";
     s_USE_PROXY := true;
     s_TIMEOUT := 10000;
     s_RETRY_ATTEMPTS := 3 |}.

Definition production : Settings :=
  {| s_BASE_URL := "https://beejalms.onrender.com";
     s_USE_PROXY := false;
     s_TIMEOUT := 15000;
     s_RETRY_ATTEMPTS := 2 |}.

Definition staging : Settings :=
  {| s_BASE_URL := "https://beejalms-staging.onrender.com";
     s_USE_PROXY := false;
     s_TIMEOUT := 12000;
     s_RETRY_ATTEMPTS := 2 |}.
End API_CONFIG.

(** [{ ...API_CONFIG.x, environment: name }]. *)
Record Config := {
  BASE_URL : string;
  USE_PROXY : bool;
  TIMEOUT : Z;
  RETRY_ATTEMPTS : Z;
  environment : string
}.

Definition spread (s : Settings) (name : string) : Config :=
  {| BASE_URL := s_BASE_URL s;
     USE_PROXY := s_USE_PROXY s;
     TIMEOUT := s_TIMEOUT s;
     RETRY_ATTEMPTS := s_RETRY_ATTEMPTS s;
     environment := name |}.

(** [getCurrentConfig] reads the module constant
    [environment = getEnvironment()], here its argument. *)
Definition getCurrentConfig (environment : Env) : Config :=
  if isDevelopment environment then
    spread API_CONFIG.development "development"
  else if isProduction environment then
    spread API_CONFIG.production "production"
  else
    spread API_CONFIG.production "unknown".

Definition getBaseURL (environment : Env) : string :=
  BASE_URL (getCurrentConfig environment).

(** The object [getEnvironmentInfo] returns; [timestamp] and [userAgent]
    come from the clock and the navigator. *)
Record EnvInfo := {
  info_env : Env;
  info_config : Config;
  info_timestamp : string;
  info_userAgent : string
}.

Definition getEnvironmentInfo (environment : Env) (now userAgent : string)
  : EnvInfo :=
  {| info_env := environment;
     info_config := getCurrentConfig environment;
     info_timestamp := now;
     info_userAgent := userAgent |}.

(** The fixed hosting-platform suffixes of [getEnvironment]. *)
Definition hosting_suffixes : list string :=
  ["onrender.com"; "netlify.app"; "vercel.app"].

Definition is_local (h : string) : Prop :=
  h = "localhost" \/ h = "127.0.0.1".

Definition has_hosting_suffix (h : string) : Prop :=
  exists suffix, In suffix hosting_suffixes /\ contains h suffix.

End Environment.

Import Environment.

(* ================================================================== *)
(** * JavaScript values shared by the modules *)

Module Js.

(** An HTTP response as the code reads it, from [fetch] or from axios. *)
Record Response := {
  status : Z;
  statusText : string;
  body : string
}.

(** [response.ok] *)
Definition ok (r : Response) : bool :=
  (200 <=? status r) && (status r <=? 299).

(** An error object, with the properties the code reads or adds. *)
Record JsError := {
  name : string;
  message : option string;
  code : option string;
  response : option Response;
  request : bool;                      (* truthiness of [error.request] *)
  config_url : option string;          (* [error.config?.url] *)
  corsError : bool;
  networkError : bool;
  userFriendlyMessage : option string
}.

Definition Error (msg : string) : JsError :=
  {| name := "Error"; message := Some msg; code := None; response := None;
     request := false; config_url := None; corsError := false;
     networkError := false; userFriendlyMessage := None |}.

Definition TypeError (msg : string) : JsError :=
  {| name := "TypeError"; message := Some msg; code := None;
     response := None; request := false; config_url := None;
     corsError := false; networkError := false;
     userFriendlyMessage := None |}.

(** The completion of an (async) call: a value, or a thrown value;
    [Throw None] throws [undefined]. *)
Inductive Completion (A : Type) : Type :=
| Normal (a : A)
| Throw (v : option JsError).
Arguments Normal {A} a.
Arguments Throw {A} v.

Definition bind {A B} (m : Completion A) (k : A -> Completion B)
  : Completion B :=
  match m with
  | Normal a => k a
  | Throw v => Throw v
  end.

(** [try { body } catch (error) { handler error }] *)
Definition try_catch {A} (body : Completion A)
           (handler : option JsError -> Completion A) : Completion A :=
  match body with
  | Normal a => Normal a
  | Throw v => handler v
  end.

(** Reading a property of a caught value: a [TypeError] on [undefined]. *)
Definition get {A} (v : option JsError) (field : JsError -> A)
  : Completion A :=
  match v with
  | Some e => Normal (field e)
  | None =>
      Throw (Some (TypeError "Cannot read properties of undefined"))
  end.

(** JavaScript truthiness of an optional string. *)
Definition truthy (s : option string) : bool :=
  match s with
  | Some s => negb (String.eqb s "")
  | None => false
  end.

(** [s?.includes(sub)], as a condition. *)
Definition opt_includes (s : option string) (sub : string) : bool :=
  match s with
  | Some s => includes s sub
  | None => false
  end.

(** [s === lit] for an optional string. *)
Definition opt_eqb (s : option string) (lit : string) : bool :=
  match s with
  | Some s => String.eqb s lit
  | None => false
  end.

Definition is_some {A} (o : option A) : bool :=
  match o with Some _ => true | None => false end.

(** What the code observes of the browser. [URL_origin u] is
    [new URL(u).origin], [None] when the constructor throws. *)
Record Browser := {
  location : Location;
  userAgent : string;
  clock : string;                      (* [new Date().toISOString()] *)
  URL_origin : string -> option string
}.

(** The module constant [environment] of [environment.js]. *)
Definition environment_of (B : Browser) : Env :=
  getEnvironment (location B).

(** The outcome of one [fetch(...)] call. *)
Inductive FetchOutcome :=
| Resolved (r : Response)
| Rejected (e : JsError).

Definition await_fetch (o : FetchOutcome) : Completion Response :=
  match o with
  | Resolved r => Normal r
  | Rejected e => Throw (Some e)
  end.

End Js.

Import Js.

Declare Scope js_scope.
Delimit Scope js_scope with js.
Notation "x <- m ;; k" := (bind m (fun x => k))
  (at level 61, m at next level, right associativity) : js_scope.
Notation "m ;;; k" := (bind m (fun _ => k))
  (at level 61, right associativity) : js_scope.
Open Scope js_scope.

(* ================================================================== *)
(** * [src/utils/corsHandler.js] *)

Module CORSErrorHandler.

Definition isCORSError (error : JsError) : bool :=
  opt_includes (message error) "CORS"
  || opt_includes (message error) "Access-Control-Allow-Origin"
  || opt_includes (message error) "Cross-Origin Request Blocked"
  || (negb (is_some (response error)) && request error
      && negb (truthy (code error))).

Definition isNetworkError (error : JsError) : bool :=
  opt_eqb (code error) "NETWORK_ERROR"
  || opt_includes (message error) "Network Error"
  || opt_includes (message error) "ERR_NETWORK"
  || opt_includes (message error) "ERR_FAILED".

(** [new URL(apiUrl).origin] *)
Definition new_URL_origin (B : Browser) (apiUrl : string)
  : Completion string :=
  match URL_origin B apiUrl with
  | Some o => Normal o
  | None => Throw (Some (TypeError "Failed to construct 'URL': Invalid URL"))
  end.

(** Only logs; the one thing that can go wrong is the URL constructor. *)
Definition logCORSDebugInfo (B : Browser) (apiUrl : string)
  : Completion unit :=
  _ <- new_URL_origin B apiUrl ;;
  Normal tt.

Record CORSDetails := {
  issue : string;
  frontend : string;
  backend : string;
  solution : string
}.

Record CORSReport := {
  cr_success : bool;
  cr_error : string;
  cr_message : string;
  cr_details : CORSDetails
}.

Definition handleCORSError (B : Browser) (error : JsError)
           (apiUrl : string) : Completion CORSReport :=
  logCORSDebugInfo B apiUrl ;;;
  backend <- new_URL_origin B apiUrl ;;
  Normal
    {| cr_success := false;
       cr_error := "CORS_ERROR";
       cr_message := "Unable to connect to server. This appears to be a server configuration issue.";
       cr_details :=
         {| issue := "CORS Policy Violation";
            frontend := origin (location B);
            backend := backend;
            solution := "Backend needs to allow cross-origin requests from frontend domain" |} |}.

Record Fallback := {
  fb_success : bool;
  fb_error : string;
  fb_message : string;
  fb_fallback : bool
}.

Definition createFallbackResponse (message : option string) : Fallback :=
  {| fb_success := false;
     fb_error := "SERVICE_UNAVAILABLE";
     fb_message :=
       match message with
       | Some m => m
       | None => "Service temporarily unavailable"
       end;
     fb_fallback := true |}.

(** [fetched] is the outcome of the [fetch(baseUrl, {method:'GET',
    mode:'cors', credentials:'include'})] the method issues. *)
Definition testCORSConnection (B : Browser) (baseUrl : string)
           (fetched : FetchOutcome) : Completion bool :=
  try_catch
    (_ <- await_fetch fetched ;;
     Normal true)
    (fun error =>
       _ <- get error message ;;
       logCORSDebugInfo B baseUrl ;;;
       Normal false).

(** The phrases [isCORSError] looks for in the message. *)
Definition cors_phrases : list string :=
  ["CORS"; "Access-Control-Allow-Origin"; "Cross-Origin Request Blocked"].

End CORSErrorHandler.

(* ================================================================== *)
(** * [src/services/apiConnector.js] *)

Module ApiConnector.

(** What the axios adapter reports for one request: a response arrived
    (with whatever status), or the request failed without one (network
    failure, timeout, blocked by the browser). *)
Inductive AdapterOutcome :=
| Responded (r : Response)
| Failed (e : JsError).

(** axios' default [validateStatus]. *)
Definition default_validateStatus (s : Z) : bool :=
  (200 <=? s) && (s <? 300).

(** The request configuration handed to [axiosInstance]; of the request
    itself the model keeps what decides how the call completes. Body,
    headers and params travel to the transport untouched. *)
Record RequestConfig := {
  rc_method : string;
  rc_url : string;
  rc_withCredentials : bool;
  rc_timeout : Z;
  rc_validateStatus : Z -> bool
}.

(** The optional last argument [config] of [apiConnector], spread over the
    request configuration. *)
Record ExtraConfig := {
  validateStatus : option (Z -> bool)
}.

Definition no_config : ExtraConfig := {| validateStatus := None |}.

(** The error axios builds for a response whose status is not accepted. *)
Definition bad_status_error (rc : RequestConfig) (r : Response) : JsError :=
  {| name := "AxiosError";
     message :=
       Some (String.append "Request failed with status code "
                           (of_Z (status r)));
     code :=
       if (400 <=? status r) && (status r <? 500) then Some "ERR_BAD_REQUEST"
       else if (500 <=? status r) && (status r <? 600)
            then Some "ERR_BAD_RESPONSE"
            else None;
     response := Some r;
     request := true;
     config_url := Some (rc_url rc);
     corsError := false;
     networkError := false;
     userFriendlyMessage := None |}.

(** axios' [settle]: resolve the response or reject with the error above. *)
Definition settle (rc : RequestConfig) (r : Response)
  : Completion Response :=
  if (status r =? 0) || rc_validateStatus rc (status r)
  then Normal r
  else Throw (Some (bad_status_error rc r)).

(** The response interceptor's success handler. *)
Definition onResponse (response : Response) : Completion Response :=
  Normal response.

(** The response interceptor's error handler; every path rejects. *)
Definition onResponseError (B : Browser) (error : JsError)
  : Completion Response :=
  let url :=
    if truthy (config_url error)
    then match config_url error with Some u => u | None => "unknown" end
    else "unknown" in
  if CORSErrorHandler.isCORSError error then
    corsError <- CORSErrorHandler.handleCORSError B error url ;;
    Throw (Some
      {| name := name error; message := message error;
         code := code error; response := response error;
         request := request error; config_url := config_url error;
         corsError := true;
         networkError := networkError error;
         userFriendlyMessage :=
           Some (CORSErrorHandler.cr_message corsError) |})
  else if CORSErrorHandler.isNetworkError error then
    Throw (Some
      {| name := name error; message := message error;
         code := code error; response := response error;
         request := request error; config_url := config_url error;
         corsError := corsError error;
         networkError := true;
         userFriendlyMessage :=
           Some "Network connection failed. Please check your internet connection." |})
  else
    Throw (Some error).

(** [axiosInstance(requestConfig)]: the adapter's outcome, settled, then
    passed through the response interceptor. *)
Definition axiosInstance (B : Browser) (rc : RequestConfig)
           (adapter : AdapterOutcome) : Completion Response :=
  match adapter with
  | Responded r =>
      match settle rc r with
      | Normal response => onResponse response
      | Throw (Some error) => onResponseError B error
      | Throw None => Throw None
      end
  | Failed error => onResponseError B error
  end.

Definition apiConnector (B : Browser) (method url : string)
           (config : ExtraConfig) (adapter : AdapterOutcome)
  : Completion Response :=
  let envConfig := getCurrentConfig (environment_of B) in
  let requestConfig :=
    {| rc_method := method;
       rc_url := url;
       rc_withCredentials := true;
       rc_timeout := TIMEOUT envConfig;
       rc_validateStatus :=
         match validateStatus config with
         | Some f => f
         | None => default_validateStatus
         end |} in
  axiosInstance B requestConfig adapter.

(** What a run of [apiConnectorWithRetry] does, in order. *)
Inductive Event :=
| Attempt (k : Z)                      (* the k-th call of [apiConnector] *)
| Sleep (ms : Z).                      (* [setTimeout(resolve, ms)], awaited *)

(** The values of the loop variable:
    [for (attempt = 1; attempt <= n; attempt++)]. *)
Definition attempts_upto (n : Z) : list Z :=
  map Z.of_nat (seq 1 (Z.to_nat n)).

(** [error.corsError ||
     (error.response?.status >= 400 && error.response?.status < 500)] *)
Definition notRetried (error : JsError) : bool :=
  corsError error
  || match response error with
     | Some r => (400 <=? status r) && (status r <? 500)
     | None => false
     end.

Section Retry.

Variable B : Browser.
Variables method url : string.
Variable config : ExtraConfig.

(** [adapter k] is what the transport does at the k-th attempt. *)
Variable adapter : Z -> AdapterOutcome.

(** [RETRY_ATTEMPTS] of the local [envConfig]. *)
Variable retryAttempts : Z.

(** The [for] loop, over the attempts still to make, followed by the
    statements after it. *)
Fixpoint retryLoop (attempts : list Z) (lastError : option JsError)
  : list Event * Completion Response :=
  match attempts with
  | [] => ([], Throw lastError)
  | attempt :: rest =>
      match apiConnector B method url config (adapter attempt) with
      | Normal response => ([Attempt attempt], Normal response)
      | Throw None =>
          ([Attempt attempt],
           Throw (Some (TypeError "Cannot read properties of undefined")))
      | Throw (Some error) =>
          if notRetried error then
            ([Attempt attempt], Throw (Some error))
          else
            let delay :=
              if attempt <? retryAttempts
              then [Sleep (2 ^ (attempt - 1) * 1000)]
              else [] in
            let (events, result) := retryLoop rest (Some error) in
            (Attempt attempt :: delay ++ events, result)
      end
  end.

Definition retryWith : list Event * Completion Response :=
  retryLoop (attempts_upto retryAttempts) None.

End Retry.

(** [apiConnectorWithRetry]: the loop above with the attempt budget of the
    current configuration. *)
Definition apiConnectorWithRetry (B : Browser) (method url : string)
           (config : ExtraConfig) (adapter : Z -> AdapterOutcome)
  : list Event * Completion Response :=
  let envConfig := getCurrentConfig (environment_of B) in
  retryWith B method url config adapter (RETRY_ATTEMPTS envConfig).

(** The object [testAPIConnectivity] returns. *)
Record ApiTest := {
  success : bool;
  test_response : option Response;
  test_error : option JsError
}.

Definition testAPIConnectivity (B : Browser) (adapter : AdapterOutcome)
  : Completion ApiTest :=
  let envConfig := getCurrentConfig (environment_of B) in
  let testUrl := String.append (BASE_URL envConfig) "/health" in
  try_catch
    (response <- apiConnector B "GET" testUrl no_config adapter ;;
     Normal {| success := true; test_response := Some response;
               test_error := None |})
    (fun error =>
       Normal {| success := false; test_response := None;
                 test_error := error |}).

(** How many calls of [apiConnector] a run made. *)
Definition attempts_made (events : list Event) : Z :=
  Z.of_nat (List.length (filter (fun ev =>
    match ev with Attempt _ => true | Sleep _ => false end) events)).

End ApiConnector.

Import ApiConnector.


(* ================================================================== *)
(** * [src/config/environment.js], continued: the fetch wrappers *)

Module EnvironmentFetch.

(** The browser's timers: the clock in milliseconds, the next timer id, and
    the timers that are armed, each with the time it is due. A timer leaves
    [armed] when it fires or when it is cleared. *)
Record Timers := {
  now : Z;
  next_timer : nat;
  armed : list (nat * Z)
}.

(** [setTimeout(callback, delay)] *)
Definition setTimeout (delay : Z) (t : Timers) : nat * Timers :=
  (next_timer t,
   {| now := now t;
      next_timer := S (next_timer t);
      armed := (next_timer t, now t + delay) :: armed t |}).

(** [clearTimeout(id)]; no effect when [id] is not armed. *)
Definition clearTimeout (id : nat) (t : Timers) : Timers :=
  {| now := now t;
     next_timer := next_timer t;
     armed := filter (fun tm => negb (Nat.eqb (fst tm) id)) (armed t) |}.

Definition due_of (id : nat) (t : Timers) : option Z :=
  match find (fun tm => Nat.eqb (fst tm) id) (armed t) with
  | Some tm => Some (snd tm)
  | None => None
  end.

(** What the network does with one [fetch]: it settles [latency]
    milliseconds after the call, with [outcome]. A server that hangs is a
    latency beyond every timeout. *)
Record Transport := {
  latency : Z;
  outcome : FetchOutcome
}.

(** The rejection of a [fetch] whose signal was aborted. *)
Definition AbortError : JsError :=
  {| name := "AbortError"; message := Some "The user aborted a request.";
     code := None; response := None; request := false; config_url := None;
     corsError := false; networkError := false;
     userFriendlyMessage := None |}.

(** [await fetch(url, { signal: controller.signal, ... })] while the timer
    [abortTimer], whose callback is [controller.abort()], may be armed.
    The transport settles first when it does so no later than the timer is
    due; otherwise the timer fires (and is no longer armed), the signal
    aborts, and the fetch rejects with [AbortError]. Only the abort timer
    of the call is followed: timers armed by other code are carried along
    as they are, whether or not they come due in the meantime. *)
Definition await_fetch_abortable (abortTimer : nat) (net : Transport)
           (t : Timers) : Completion Response * Timers :=
  let settled := now t + latency net in
  match due_of abortTimer t with
  | Some due =>
      if settled <=? due then
        (await_fetch (outcome net),
         {| now := settled; next_timer := next_timer t; armed := armed t |})
      else
        (Throw (Some AbortError),
         {| now := due;
            next_timer := next_timer t;
            armed := filter (fun tm => negb (Nat.eqb (fst tm) abortTimer))
                            (armed t) |})
  | None =>
      (await_fetch (outcome net),
       {| now := settled; next_timer := next_timer t; armed := armed t |})
  end.

Definition timeout_message (config : Config) : string :=
  String.append "Request timeout after "
                (String.append (of_Z (TIMEOUT config)) "ms").

Definition corsAwareFetch (B : Browser) (net : Transport) (t : Timers)
  : Completion Response * Timers :=
  let config := getCurrentConfig (environment_of B) in
  let (timeoutId, t1) := setTimeout (TIMEOUT config) t in
  let (fetched, t2) := await_fetch_abortable timeoutId net t1 in
  match fetched with
  | Normal response =>
      let t3 := clearTimeout timeoutId t2 in
      (Normal response, t3)
  | Throw error =>
      let t3 := clearTimeout timeoutId t2 in
      match error with
      | Some e =>
          if String.eqb (name e) "AbortError" then
            (Throw (Some (Error (timeout_message config))), t3)
          else
            (Throw error, t3)
      | None =>
          (Throw (Some (TypeError "Cannot read properties of undefined")), t3)
      end
  end.

(** The object [performHealthCheck] returns. *)
Record Health := {
  h_success : bool;
  h_status : option Z;
  h_error : option string;
  h_url : string;
  h_timestamp : string
}.

Definition performHealthCheck (B : Browser) (net : Transport) (t : Timers)
  : Completion Health * Timers :=
  let config := getCurrentConfig (environment_of B) in
  let healthUrl := String.append (BASE_URL config) "/health" in
  let (fetched, t1) := corsAwareFetch B net t in
  (try_catch
     (response <- fetched ;;
      Normal {| h_success := ok response;
                h_status := Some (status response);
                h_error := None;
                h_url := healthUrl;
                h_timestamp := clock B |})
     (fun error =>
        msg <- get error message ;;
        Normal {| h_success := false;
                  h_status := None;
                  h_error := msg;
                  h_url := healthUrl;
                  h_timestamp := clock B |}),
   t1).

(** Timer [id] can still fire. *)
Definition pending (id : nat) (t : Timers) : Prop :=
  exists due, In (id, due) (armed t).

End EnvironmentFetch.

Import EnvironmentFetch.

(* ================================================================== *)
(** * [src/utils/apiDebugger.js] *)

Module ApiDebugger.

(** An HTTP request the module sends with [fetch]. *)
Record Request := {
  req_method : string;
  req_url : string;
  req_authorization : option string
}.

Section AdminAPI.

(** [JSON.parse]: [None] when it throws. *)
Variable Json : Type.
Variable JSON_parse : string -> option Json.

(** The objects [testAdminAPI] returns. *)
Record AdminResult := {
  ar_success : bool;
  ar_error : option string;
  ar_data : option Json;
  ar_status : option Z;
  ar_rawResponse : option string;
  ar_type : option string
}.

Definition no_token_result : AdminResult :=
  {| ar_success := false; ar_error := Some "No token provided";
     ar_data := None; ar_status := None; ar_rawResponse := None;
     ar_type := None |}.

(** [token] is [None] for a missing argument ([undefined] or [null]).
    [fetched] is the outcome of the one [fetch] the function may issue; the
    first component of the result lists the requests that were sent. *)
Definition testAdminAPI (B : Browser) (token : option string)
           (fetched : FetchOutcome) : list Request * Completion AdminResult :=
  if negb (truthy token) then
    ([], Normal no_token_result)
  else
    let token := match token with Some t => t | None => "" end in
    let config := getCurrentConfig (environment_of B) in
    let apiUrl := String.append (BASE_URL config) "/api/v1/admin/users" in
    let sent :=
      [{| req_method := "GET"; req_url := apiUrl;
          req_authorization := Some (String.append "Bearer " token) |}] in
    (sent,
     try_catch
       (response <- await_fetch fetched ;;
        let responseText := body response in
        if ok response then
          match JSON_parse responseText with
          | Some data =>
              Normal {| ar_success := true; ar_error := None;
                        ar_data := Some data;
                        ar_status := Some (status response);
                        ar_rawResponse := None; ar_type := None |}
          | None =>
              Normal {| ar_success := false;
                        ar_error := Some "Invalid JSON response";
                        ar_data := None; ar_status := None;
                        ar_rawResponse := Some responseText;
                        ar_type := None |}
          end
        else
          (if (status response =? 0) || String.eqb responseText ""
           then CORSErrorHandler.logCORSDebugInfo B apiUrl
           else Normal tt) ;;;
          Normal {| ar_success := false;
                    ar_error :=
                      Some (String.append "HTTP "
                             (String.append (of_Z (status response))
                               (String.append ": " (statusText response))));
                    ar_data := None;
                    ar_status := Some (status response);
                    ar_rawResponse := Some responseText;
                    ar_type := None |})
       (fun error =>
          isCORS <- get error CORSErrorHandler.isCORSError ;;
          (if isCORS
           then CORSErrorHandler.logCORSDebugInfo B apiUrl
           else Normal tt) ;;;
          msg <- get error message ;;
          nm <- get error name ;;
          Normal {| ar_success := false; ar_error := msg;
                    ar_data := None; ar_status := None;
                    ar_rawResponse := None; ar_type := Some nm |})).

End AdminAPI.

(** The [details] of a test entry: the environment snapshot, or a text
    ([None] when the text is [undefined]). *)
Inductive Details :=
| DetailsInfo (info : EnvInfo)
| DetailsText (text : option string).

Record TestEntry := {
  passed : bool;
  details : Details
}.

(** The [tests] object: its keys in insertion order. *)
Definition Tests := list (string * TestEntry).

(** [tests[key] = entry]: an existing key keeps its place, a new key goes
    last. *)
Fixpoint set_test (key : string) (entry : TestEntry) (tests : Tests)
  : Tests :=
  match tests with
  | [] => [(key, entry)]
  | (k, e) :: rest =>
      if String.eqb k key then (k, entry) :: rest
      else (k, e) :: set_test key entry rest
  end.

Fixpoint get_test (key : string) (tests : Tests) : option TestEntry :=
  match tests with
  | [] => None
  | (k, e) :: rest => if String.eqb k key then Some e else get_test key rest
  end.

Record Report := {
  timestamp : string;
  report_environment : string;
  tests : Tests
}.

(** [a || b] on optional strings. *)
Definition or_else (s : option string) (fallback : string) : string :=
  if truthy s then match s with Some s => s | None => fallback end
  else fallback.

(** The body of [quickDiagnostic], given how its two awaited checks
    complete. *)
Definition quickDiagnosticWith (B : Browser) (corsCheck : Completion bool)
           (apiCheck : Completion ApiTest) : Completion Report :=
  let environment := environment_of B in
  let timestamp := clock B in
  let report_environment := Environment.environment (getCurrentConfig environment) in
  let tests0 : Tests := [] in
  (* Test 1: Environment check *)
  let tests1 :=
    set_test "environment"
      {| passed := true;
         details :=
           DetailsInfo (getEnvironmentInfo environment (clock B) (userAgent B)) |}
      tests0 in
  (* Test 2: CORS test *)
  tests2 <-
    try_catch
      (corsResult <- corsCheck ;;
       Normal (set_test "cors"
         {| passed := corsResult;
            details :=
              DetailsText (Some (if corsResult
                                 then "CORS connection successful"
                                 else "CORS connection failed")) |}
         tests1))
      (fun error =>
         msg <- get error message ;;
         Normal (set_test "cors"
           {| passed := false; details := DetailsText msg |} tests1)) ;;
  (* Test 3: API connectivity *)
  tests3 <-
    try_catch
      (apiResult <- apiCheck ;;
       Normal (set_test "apiConnectivity"
         {| passed := success apiResult;
            details :=
              DetailsText (Some
                (if success apiResult then "API reachable"
                 else or_else
                        match test_error apiResult with
                        | Some e => message e
                        | None => None
                        end
                        "API unreachable")) |}
         tests2))
      (fun error =>
         msg <- get error message ;;
         Normal (set_test "apiConnectivity"
           {| passed := false; details := DetailsText msg |} tests2)) ;;
  Normal {| timestamp := timestamp;
            report_environment := report_environment;
            tests := tests3 |}.

(** [corsFetch] is the outcome of the [fetch] of the CORS test, [adapter]
    what the axios adapter reports for [GET {BASE_URL}/health]. *)
Definition quickDiagnostic (B : Browser) (corsFetch : FetchOutcome)
           (adapter : AdapterOutcome) : Completion Report :=
  let baseUrl := BASE_URL (getCurrentConfig (environment_of B)) in
  quickDiagnosticWith B
    (CORSErrorHandler.testCORSConnection B baseUrl corsFetch)
    (testAPIConnectivity B adapter).

(** A check either returns its result or throws an error object. *)
Definition check_outcome {A} (o : A + JsError) : Completion A :=
  match o with
  | inl a => Normal a
  | inr e => Throw (Some e)
  end.

End ApiDebugger.

Import ApiDebugger.

(* ================================================================== *)
(** * Vocabulary of the statements *)

(** One failed attempt that is retried: the call, then the wait. *)
Definition retried (attempt : Z) : list Event :=
  [Attempt attempt; Sleep (2 ^ (attempt - 1) * 1000)].

(** The run that retries attempts [a], ..., [a + m - 1] and ends with
    attempt [a + m]. *)
Definition schedule (a m : nat) : list Event :=
  (flat_map retried (map Z.of_nat (seq a m))
   ++ [Attempt (Z.of_nat (a + m))])%list.

(** The loop goes on after a completion only if it is a retryable error. *)
Definition stops (c : Completion Response) : Prop :=
  match c with
  | Normal _ => True
  | Throw (Some e) => notRetried e = true
  | Throw None => False
  end.

(** The [passed] flag of the entry [key] of a diagnostic run. *)
Definition passed_of (key : string) (run : Completion Report)
  : option bool :=
  match run with
  | Normal report => option_map passed (get_test key (tests report))
  | Throw _ => None
  end.

(** The keys of the report of a diagnostic run, in order. *)
Definition keys_of (run : Completion Report) : option (list string) :=
  match run with
  | Normal report => Some (map fst (tests report))
  | Throw _ => None
  end.

(* ================================================================== *)
(** * Concrete inputs *)

Definition loc_local : Location :=
  {| hostname := "localhost"; protocol := "http:";
     origin := "http://localhost:5173" |}.

Definition loc_vercel : Location :=
  {| hostname := "beeja-front.vercel.app"; protocol := "https:";
     origin := "https://beeja-front.vercel.app" |}.

Definition loc_other : Location :=
  {| hostname := "lms.example.org"; protocol := "https:";
     origin := "https://lms.example.org" |}.

Fixpoint up_to_slash (s : string) : string :=
  match s with
  | EmptyString => EmptyString
  | String c rest =>
      if Ascii.eqb c "/" then EmptyString else String c (up_to_slash rest)
  end.

(** Origins of absolute http(s) URLs; anything else does not parse. *)
Definition sample_URL_origin (u : string) : option string :=
  if startsWith u "https://" then
    Some (String.append "https://"
            (up_to_slash (substring 8 (String.length u) u)))
  else if startsWith u "http://" then
    Some (String.append "http://"
            (up_to_slash (substring 7 (String.length u) u)))
  else None.

Definition browser_at (loc : Location) : Browser :=
  {| location := loc;
     userAgent := "Mozilla/5.0";
     clock := "2024-05-01T10:00:00.000Z";
     URL_origin := sample_URL_origin |}.

Definition response_with (code : Z) (text payload : string) : Response :=
  {| status := code; statusText := text; body := payload |}.

Definition not_found : Response := response_with 404 "Not Found" "".

(** The body [{"status":"ok"}]. *)
Definition status_ok_body : string :=
  let q := String "034" EmptyString in
  String.concat "" ["{"; q; "status"; q; ":"; q; "ok"; q; "}"].

Definition health_ok : Response := response_with 200 "OK" status_ok_body.

(** The error axios reports when the connection fails. *)
Definition network_error : JsError :=
  {| name := "AxiosError"; message := Some "Network Error";
     code := Some "ERR_NETWORK"; response := None; request := true;
     config_url := Some "http://localhost:4000/health";
     corsError := false; networkError := false;
     userFriendlyMessage := None |}.

(** An error whose message spells the phrase in lower case and which
    carries an error code, as axios network errors do. *)
Definition lowercase_cors_error : JsError :=
  {| name := "AxiosError";
     message := Some "blocked by cors policy";
     code := Some "ERR_NETWORK";
     response := None; request := true;
     config_url := Some "https://beejalms.onrender.com/health";
     corsError := false; networkError := false;
     userFriendlyMessage := None |}.

(** A transport that fails twice, then answers. *)
Definition fails_twice (k : Z) : AdapterOutcome :=
  if k <? 3 then Failed network_error else Responded health_ok.

(** A transport that always answers 404. *)
Definition always_404 (k : Z) : AdapterOutcome := Responded not_found.

Definition no_timers : Timers :=
  {| now := 0; next_timer := 0; armed := [] |}.

Definition hanging : Transport :=
  {| latency := 60000; outcome := Resolved health_ok |}.

(* ================================================================== *)
(** * Vocabulary of the further properties *)

(** The milliseconds a run of the retry loop spends waiting. *)
Definition total_wait (events : list Event) : Z :=
  fold_right (fun ev acc =>
                match ev with
                | Sleep ms => ms + acc
                | Attempt _ => acc
                end) 0 events.

(** The URL the response interceptor reports an error for:
    [error.config?.url || 'unknown']. *)
Definition reported_url (error : JsError) : string :=
  if truthy (config_url error)
  then match config_url error with Some u => u | None => "unknown" end
  else "unknown".

(** A failure without a response that [isCORSError] does not recognise and
    that is not already flagged. *)
Definition plain_failure (o : AdapterOutcome) : Prop :=
  match o with
  | Failed e =>
      CORSErrorHandler.isCORSError e = false /\
      corsError e = false /\ response e = None
  | Responded _ => False
  end.

(** A response with a server-error status. *)
Definition server_error (o : AdapterOutcome) : Prop :=
  match o with
  | Responded r => 500 <= status r <= 599
  | Failed _ => False
  end.

(** The error axios reports when its own timeout expires. *)
Definition axios_timeout_error : JsError :=
  {| name := "AxiosError"; message := Some "timeout of 15000ms exceeded";
     code := Some "ECONNABORTED"; response := None; request := true;
     config_url := Some "https://beejalms.onrender.com/health";
     corsError := false; networkError := false;
     userFriendlyMessage := None |}.

(** A failure with a request, no response and no error code. *)
Definition uncoded_network_error : JsError :=
  {| name := "Error"; message := Some "Network Error";
     code := None; response := None; request := true;
     config_url := Some "https://beejalms.onrender.com/health";
     corsError := false; networkError := false;
     userFriendlyMessage := None |}.

Definition unavailable : Response :=
  response_with 503 "Service Unavailable" EmptyString.

(** The [details] of the entry [key] of a diagnostic run. *)
Definition details_of (key : string) (run : Completion Report)
  : option Details :=
  match run with
  | Normal report => option_map details (get_test key (tests report))
  | Throw _ => None
  end.

Definition is_resolved (o : FetchOutcome) : bool :=
  match o with
  | Resolved _ => true
  | Rejected _ => false
  end.

(** The URL [testAdminAPI] calls. *)
Definition admin_url (B : Browser) : string :=
  String.append (BASE_URL (getCurrentConfig (environment_of B)))
                "/api/v1/admin/users".

(** A toy [JSON.parse]: only the text [{}] parses. *)
Definition parse_braces (s : string) : option unit :=
  if String.eqb s "{}" then Some tt else None.

(** What browsers reject a blocked cross-origin [fetch] with. *)
Definition failed_to_fetch : JsError := TypeError "Failed to fetch".

(* ================================================================== *)
(** * [src/services/apiConnector.js], continued: the request that
      [apiConnector] builds *)

Module ApiConnectorRequest.

(** A JavaScript object with string values: its properties in insertion
    order. The keys of an object are distinct. *)
Definition Obj := list (string * string).

(** [obj[key]] *)
Fixpoint obj_get (key : string) (obj : Obj) : option string :=
  match obj with
  | [] => None
  | (k, v) :: rest => if String.eqb k key then Some v else obj_get key rest
  end.

(** [obj[key] = value]: an existing key keeps its place, a new key goes
    last. *)
Fixpoint obj_set (key value : string) (obj : Obj) : Obj :=
  match obj with
  | [] => [(key, value)]
  | (k, v) :: rest =>
      if String.eqb k key then (k, value) :: rest
      else (k, v) :: obj_set key value rest
  end.

(** [{ ...base, ...extra }] *)
Definition obj_spread (base extra : Obj) : Obj :=
  fold_left (fun acc kv => obj_set (fst kv) (snd kv) acc) extra base.

(** The [bodyData] argument, when it is neither [undefined] nor [null]. *)
Inductive BodyData :=
| FormData (fields : Obj)
| PlainData (json : string).

(** [bodyData instanceof FormData] *)
Definition isFormData (bodyData : option BodyData) : bool :=
  match bodyData with
  | Some (FormData _) => true
  | _ => false
  end.

(** [headers?.Authorization] *)
Definition authorization_of (headers : option Obj) : option string :=
  match headers with
  | Some h => obj_get "Authorization" h
  | None => None
  end.

(** Spreading [undefined] or [null] adds nothing. *)
Definition or_empty (o : option Obj) : Obj :=
  match o with
  | Some obj => obj
  | None => []
  end.

Definition defaultHeaders (bodyData : option BodyData)
           (headers : option Obj) : Obj :=
  obj_spread
    (obj_spread []
       (if isFormData bodyData then []
        else [("Content-Type", "application/json")]))
    (if truthy (authorization_of headers)
     then [("Authorization",
            match authorization_of headers with
            | Some a => a
            | None => EmptyString
            end)]
     else []).

(** The object literal [requestConfig]. *)
Record Request := {
  method : string;
  url : string;
  data : option BodyData;
  headers : Obj;
  params : option Obj;
  withCredentials : bool;
  timeout : Z
}.

(** The keys of the argument [config] that collide with those
    [apiConnector] sets; a key that is absent is [None]. *)
Record Overrides := {
  o_method : option string;
  o_url : option string;
  o_data : option (option BodyData);
  o_headers : option Obj;
  o_params : option (option Obj);
  o_withCredentials : option bool;
  o_timeout : option Z
}.

Definition no_overrides : Overrides :=
  {| o_method := None; o_url := None; o_data := None; o_headers := None;
     o_params := None; o_withCredentials := None; o_timeout := None |}.

Definition override {A} (o : option A) (a : A) : A :=
  match o with
  | Some a' => a'
  | None => a
  end.

Definition requestConfig (B : Browser) (method url : string)
           (bodyData : option BodyData) (headers params : option Obj)
           (config : Overrides) : Request :=
  let envConfig := getCurrentConfig (environment_of B) in
  {| method := override (o_method config) method;
     url := override (o_url config) url;
     data := override (o_data config) bodyData;
     headers :=
       override (o_headers config)
                (obj_spread (defaultHeaders bodyData headers)
                            (or_empty headers));
     params := override (o_params config) params;
     withCredentials := override (o_withCredentials config) true;
     timeout := override (o_timeout config) (TIMEOUT envConfig) |}.

(** The keys of an object are distinct. *)
Definition obj_wf (obj : option Obj) : Prop :=
  NoDup (map fst (or_empty obj)).

End ApiConnectorRequest.

(* ================================================================== *)
(** * [src/utils/apiDebugger.js], continued *)

Module ApiDebuggerFull.

Definition SyntaxError (msg : string) : JsError :=
  {| name := "SyntaxError"; message := Some msg; code := None;
     response := None; request := false; config_url := None;
     corsError := false; networkError := false;
     userFriendlyMessage := None |}.

(** The object [debugAPIIssues] returns. *)
Record DebugReport := {
  dbg_environment : EnvInfo;
  dbg_corsTest : bool;
  dbg_timestamp : string
}.

Section DebugAPIIssues.

(** [JSON.parse] ([None] when it throws) and the test for the value
    [null]. *)
Variable Json : Type.
Variable JSON_parse : string -> option Json.
Variable JSON_is_null : Json -> bool.

(** [localStorage.getItem]: [None] for a key that is not stored. *)
Variable getItem : string -> option string.

(** [JSON.parse(localStorage.getItem('persist:auth') || '{}')], then
    [Object.keys(authState)]. *)
Definition read_auth_state : Completion Json :=
  match JSON_parse (or_else (getItem "persist:auth") "{}") with
  | None => Throw (Some (SyntaxError "Unexpected token in JSON"))
  | Some authState =>
      if JSON_is_null authState
      then Throw (Some (TypeError
                          "Cannot convert undefined or null to object"))
      else Normal authState
  end.

(** [corsFetch] is the outcome of the fetch of the CORS test, [healthNet]
    the transport of the health check, [adapter] what axios reports for the
    connectivity test. *)
Definition debugAPIIssues (B : Browser) (corsFetch : FetchOutcome)
           (healthNet : Transport) (adapter : AdapterOutcome) (t : Timers)
  : Completion DebugReport * Timers :=
  (* 1. Environment Information *)
  let envInfo :=
    getEnvironmentInfo (environment_of B) (clock B) (userAgent B) in
  (* 2. Authentication State *)
  match read_auth_state with
  | Throw v => (Throw v, t)
  | Normal _ =>
      (* 3. CORS Connectivity Test *)
      let config := getCurrentConfig (environment_of B) in
      match CORSErrorHandler.testCORSConnection B (BASE_URL config)
                                                corsFetch with
      | Throw v => (Throw v, t)
      | Normal corsTestResult =>
          (* 4. Health Check *)
          let (healthResult, t1) := performHealthCheck B healthNet t in
          let _ := try_catch (healthResult ;;; Normal tt)
                             (fun _ => Normal tt) in
          (* 5. API Connectivity Test *)
          let _ := try_catch (testAPIConnectivity B adapter ;;; Normal tt)
                             (fun _ => Normal tt) in
          (Normal {| dbg_environment := envInfo;
                     dbg_corsTest := corsTestResult;
                     dbg_timestamp := clock B |},
           t1)
      end
  end.

End DebugAPIIssues.

(** The statement at the end of the module, run when it is imported:
    in development, schedule [quickDiagnostic] one second later. *)
Definition on_import (B : Browser) (t : Timers) : Timers :=
  if String.eqb (Environment.environment
                   (getCurrentConfig (environment_of B))) "development"
  then snd (setTimeout 1000 t)
  else t.

End ApiDebuggerFull.

(* ================================================================== *)
(** * [src/components/common/DebugPanel.jsx]: state and handlers *)

Module DebugPanel.

(** The four [useState] cells of the component. *)
Record PanelState := {
  isOpen : bool;
  diagnosticResults : option Report;
  isRunning : bool;
  envInfo : option EnvInfo
}.

Definition initial : PanelState :=
  {| isOpen := false; diagnosticResults := None; isRunning := false;
     envInfo := None |}.

Definition setIsOpen (b : bool) (s : PanelState) : PanelState :=
  {| isOpen := b; diagnosticResults := diagnosticResults s;
     isRunning := isRunning s; envInfo := envInfo s |}.

Definition setDiagnosticResults (r : Report) (s : PanelState) : PanelState :=
  {| isOpen := isOpen s; diagnosticResults := Some r;
     isRunning := isRunning s; envInfo := envInfo s |}.

Definition setIsRunning (b : bool) (s : PanelState) : PanelState :=
  {| isOpen := isOpen s; diagnosticResults := diagnosticResults s;
     isRunning := b; envInfo := envInfo s |}.

Definition setEnvInfo (i : EnvInfo) (s : PanelState) : PanelState :=
  {| isOpen := isOpen s; diagnosticResults := diagnosticResults s;
     isRunning := isRunning s; envInfo := Some i |}.

(** The effect run once after mounting. *)
Definition on_mount (B : Browser) (s : PanelState) : PanelState :=
  setEnvInfo (getEnvironmentInfo (environment_of B) (clock B) (userAgent B))
             s.

(** [try { body } catch (error) { log } finally { setIsRunning(false) }]
    around a body that completes as [body] and leaves the state [s]. *)
Definition guarded {A} (body : Completion A) (s : PanelState)
  : Completion unit * PanelState :=
  (try_catch (body ;;; Normal tt) (fun _ => Normal tt),
   setIsRunning false s).

Definition runQuickDiagnostic (B : Browser) (corsFetch : FetchOutcome)
           (adapter : AdapterOutcome) (s : PanelState)
  : Completion unit * PanelState :=
  let s1 := setIsRunning true s in
  let results := quickDiagnostic B corsFetch adapter in
  let s2 :=
    match results with
    | Normal r => setDiagnosticResults r s1
    | Throw _ => s1
    end in
  guarded results s2.

(** [token] is [localStorage.getItem('token')]; the first component of the
    result lists the requests that were sent. *)
Definition testAPI (Json : Type) (JSON_parse : string -> option Json)
           (B : Browser) (token : option string) (fetched : FetchOutcome)
           (s : PanelState)
  : list Request * (Completion unit * PanelState) :=
  if negb (truthy token) then
    ([], (Normal tt, s))
  else
    let s1 := setIsRunning true s in
    let (sent, result) := testAdminAPI JSON_parse B token fetched in
    (sent, guarded result s1).

Definition runFullDebug (Json : Type) (JSON_parse : string -> option Json)
           (JSON_is_null : Json -> bool) (getItem : string -> option string)
           (B : Browser) (corsFetch : FetchOutcome) (healthNet : Transport)
           (adapter : AdapterOutcome) (t : Timers) (s : PanelState)
  : (Completion unit * PanelState) * Timers :=
  let s1 := setIsRunning true s in
  let (result, t1) :=
    ApiDebuggerFull.debugAPIIssues JSON_parse JSON_is_null getItem B
                                   corsFetch healthNet adapter t in
  (guarded result s1, t1).

(** [window.location.search] is [search]. *)
Definition shouldShow (s : PanelState) (search : string) : bool :=
  match envInfo s with
  | Some i =>
      String.eqb (Environment.environment (info_config i)) "development"
  | None => false
  end
  || includes search "debug=true".

End DebugPanel.

(** A toy [JSON.parse] for the stored state: [{}] is an object, [null] is
    the value null, nothing else parses. *)
Definition parse_state (s : string) : option bool :=
  if String.eqb s "{}" then Some false
  else if String.eqb s "null" then Some true
  else None.

(** A storage that holds nothing. *)
Definition empty_storage (key : string) : option string := None.

(** A storage whose persisted auth state is cut off. *)
Definition corrupt_storage (key : string) : option string :=
  if String.eqb key "persist:auth" then Some "{oops" else None.

(** A failure on a request to a relative URL whose message names CORS. *)
Definition relative_cors_error : JsError :=
  {| name := "AxiosError"; message := Some "Request blocked by CORS policy";
     code := Some "ERR_NETWORK"; response := None; request := true;
     config_url := Some "/api/v1/course/list";
     corsError := false; networkError := false;
     userFriendlyMessage := None |}.

(* ================================================================== *)
(** * Properties *)

(** ** Strings *)

Lemma startsWith_split (s p : string) :
  startsWith s p = true <-> exists post, s = String.append p post.
Proof.
  revert s; induction p as [|c p IH]; intros s; simpl.
  - split; [intros _; now exists s | reflexivity].
  - destruct s as [|d s].
    + split; [discriminate | intros [post H]; discriminate].
    + rewrite andb_true_iff, Ascii.eqb_eq, IH. split.
      * intros [-> [post ->]]. now exists post.
      * intros [post H]. inversion H. split; [reflexivity | now exists post].
Qed.

Lemma includes_contains (s sub : string) :
  includes s sub = true <-> contains s sub.
Proof.
  unfold contains. induction s as [|c s IH].
  - simpl. rewrite orb_false_r, startsWith_split. split.
    + intros [post H]. now exists EmptyString, post.
    + intros [pre [post H]]. destruct pre; [now exists post | discriminate].
  - cbn [includes]. rewrite orb_true_iff, IH, startsWith_split. split.
    + intros [[post H] | [pre [post H]]].
      * now exists EmptyString, post.
      * exists (String c pre), post. simpl. now rewrite H.
    + intros [pre [post H]]. destruct pre as [|d pre].
      * left. now exists post.
      * right. simpl in H. inversion H. now exists pre, post.
Qed.

Lemma isDevelopment_iff (location : Location) :
  isDevelopment (getEnvironment location) = true <->
  is_local (hostname location).
Proof.
  unfold is_local; simpl. rewrite orb_true_iff, !String.eqb_eq. tauto.
Qed.

Lemma isProduction_iff (location : Location) :
  isProduction (getEnvironment location) = true <->
  has_hosting_suffix (hostname location).
Proof.
  unfold has_hosting_suffix, hosting_suffixes; simpl.
  rewrite !orb_true_iff, !includes_contains. split.
  - intros [[H|H]|H]; eexists; (split; [|exact H]); simpl; tauto.
  - intros [suffix [[<-|[<-|[<-|[]]]] H]]; tauto.
Qed.

Lemma local_not_hosted (h : string) :
  is_local h -> ~ has_hosting_suffix h.
Proof.
  intros Hl Hs.
  assert (E : (includes h "onrender.com" || includes h "netlify.app"
               || includes h "vercel.app")%bool = true).
  { apply (isProduction_iff {| hostname := h; protocol := ""; origin := "" |}).
    exact Hs. }
  destruct Hl as [-> | ->]; vm_compute in E; discriminate.
Qed.

(** C2. The resolver returns the development configuration named
    [development] when the hostname is [localhost] or [127.0.0.1]; the
    production configuration named [production] when the hostname contains
    one of the suffixes [onrender.com], [netlify.app], [vercel.app]; and for
    every other hostname the production values under the name [unknown]. *)
Theorem getCurrentConfig_by_hostname (location : Location) :
  let cfg := getCurrentConfig (getEnvironment location) in
  (is_local (hostname location) ->
     cfg = spread API_CONFIG.development "development") /\
  (has_hosting_suffix (hostname location) ->
     cfg = spread API_CONFIG.production "production") /\
  (~ is_local (hostname location) ->
   ~ has_hosting_suffix (hostname location) ->
     cfg = spread API_CONFIG.production "unknown").
Proof.
  intros cfg; subst cfg; unfold getCurrentConfig.
  pose proof (isDevelopment_iff location) as Hd.
  pose proof (isProduction_iff location) as Hp.
  pose proof (@local_not_hosted (hostname location)) as Hx.
  destruct (isDevelopment (getEnvironment location));
    destruct (isProduction (getEnvironment location));
    repeat split; intros; try reflexivity; exfalso;
    intuition congruence.
Qed.

Lemma getCurrentConfig_by_hostname_witness :
  getCurrentConfig (getEnvironment loc_local)
    = spread API_CONFIG.development "development" /\
  getCurrentConfig (getEnvironment loc_vercel)
    = spread API_CONFIG.production "production" /\
  getCurrentConfig (getEnvironment loc_other)
    = spread API_CONFIG.production "unknown".
Proof.
  split; [|split].
  - apply (proj1 (getCurrentConfig_by_hostname loc_local)).
    left; reflexivity.
  - apply (proj1 (proj2 (getCurrentConfig_by_hostname loc_vercel))).
    exists "vercel.app". split; [simpl; tauto|].
    apply includes_contains. reflexivity.
  - apply (proj2 (proj2 (getCurrentConfig_by_hostname loc_other))).
    + intros [H|H]; discriminate H.
    + intros H. apply isProduction_iff in H. discriminate H.
Defined.

Lemma isCORSError_includes (error : JsError) (phrase : string) :
  In phrase CORSErrorHandler.cors_phrases ->
  opt_includes (message error) phrase = true ->
  CORSErrorHandler.isCORSError error = true.
Proof.
  unfold CORSErrorHandler.isCORSError.
  intros [<-|[<-|[<-|[]]]] ->; rewrite ?orb_true_r; reflexivity.
Qed.

(** C6, as stated, fails: the message matches the phrase [CORS] when case is
    ignored, yet the classifier answers [false]. *)
Lemma isCORSError_ignores_lowercase :
  message lowercase_cors_error = Some "blocked by cors policy" /\
  includes_ci "blocked by cors policy" "CORS" = true /\
  CORSErrorHandler.isCORSError lowercase_cors_error = false.
Proof. repeat split. Qed.

(** C6, amended. Every error whose message contains, compared exactly
    (case-sensitively), one of the phrases [CORS],
    [Access-Control-Allow-Origin], [Cross-Origin Request Blocked] is
    classified as a CORS error; in particular the message
    [No 'Access-Control-Allow-Origin' header is present] is. *)
Theorem isCORSError_phrase :
  (forall (error : JsError) (m phrase : string),
     message error = Some m ->
     In phrase CORSErrorHandler.cors_phrases ->
     contains m phrase ->
     CORSErrorHandler.isCORSError error = true) /\
  (forall error : JsError,
     message error
       = Some "No 'Access-Control-Allow-Origin' header is present" ->
     CORSErrorHandler.isCORSError error = true).
Proof.
  split.
  - intros error m phrase Hm Hin Hc.
    apply isCORSError_includes with (phrase := phrase);
      [exact Hin|].
    rewrite Hm; simpl. now apply includes_contains.
  - intros error Hm.
    apply isCORSError_includes
      with (phrase := "Access-Control-Allow-Origin").
    + simpl; tauto.
    + rewrite Hm. reflexivity.
Qed.

Lemma isCORSError_phrase_witness :
  CORSErrorHandler.isCORSError
    (Error "Access to XMLHttpRequest has been blocked by CORS policy") = true
  /\ CORSErrorHandler.isCORSError
       (Error "No 'Access-Control-Allow-Origin' header is present") = true.
Proof.
  split.
  - apply (proj1 isCORSError_phrase) with
      (m := "Access to XMLHttpRequest has been blocked by CORS policy")
      (phrase := "CORS").
    + reflexivity.
    + simpl; tauto.
    + apply includes_contains. reflexivity.
  - apply (proj2 isCORSError_phrase). reflexivity.
Defined.

(** ** The axios pipeline *)

Lemma onResponseError_rejects (B : Browser) (error : JsError) :
  exists e, onResponseError B error = Throw (Some e).
Proof.
  unfold onResponseError.
  destruct (CORSErrorHandler.isCORSError error).
  - unfold CORSErrorHandler.handleCORSError, CORSErrorHandler.logCORSDebugInfo,
      CORSErrorHandler.new_URL_origin.
    destruct (URL_origin B _); simpl; eauto.
  - destruct (CORSErrorHandler.isNetworkError error); eauto.
Qed.

Lemma apiConnector_cases (B : Browser) (method url : string)
      (config : ExtraConfig) (adapter : AdapterOutcome) :
  (exists r, apiConnector B method url config adapter = Normal r) \/
  (exists e, apiConnector B method url config adapter = Throw (Some e)).
Proof.
  unfold apiConnector, axiosInstance, settle.
  destruct adapter as [r | e0].
  - match goal with |- context [if ?c then _ else _] => destruct c end.
    + left; eexists; reflexivity.
    + right; apply onResponseError_rejects.
  - right; apply onResponseError_rejects.
Qed.

Lemma apiConnector_never_undefined (B : Browser) (method url : string)
      (config : ExtraConfig) (adapter : AdapterOutcome) :
  apiConnector B method url config adapter <> Throw None.
Proof.
  destruct (apiConnector_cases B method url config adapter) as [[r H]|[e H]];
    rewrite H; discriminate.
Qed.

(** ** The retry loop *)

Lemma schedule_0 (a : nat) : schedule a 0 = [Attempt (Z.of_nat a)].
Proof. unfold schedule; simpl. now rewrite Nat.add_0_r. Qed.

Lemma schedule_S (a m : nat) :
  schedule a (S m) =
  Attempt (Z.of_nat a) :: Sleep (2 ^ (Z.of_nat a - 1) * 1000)
    :: schedule (S a) m.
Proof.
  unfold schedule; simpl. now rewrite Nat.add_succ_r.
Qed.

Lemma attempts_made_schedule (a m : nat) :
  attempts_made (schedule a m) = Z.of_nat (S m).
Proof.
  revert a; induction m as [|m IH]; intros a.
  - now rewrite schedule_0.
  - rewrite schedule_S. specialize (IH (S a)).
    unfold attempts_made in *; simpl in *. lia.
Qed.

Lemma schedule_last (a m : nat) :
  exists pre, schedule a m = (pre ++ [Attempt (Z.of_nat (a + m))])%list.
Proof. unfold schedule; eauto. Qed.

(** Where an attempt sits in a schedule: first, or right after the
    previous attempt and its wait. *)
Lemma schedule_before_attempt (m : nat) :
  forall (a : nat) (pre post : list Event) (k : Z),
    schedule a m = (pre ++ Attempt k :: post)%list ->
    (pre = [] /\ k = Z.of_nat a) \/
    (Z.of_nat a < k /\
     exists pre',
       pre = (pre' ++ [Attempt (k - 1); Sleep (2 ^ (k - 2) * 1000)])%list).
Proof.
  induction m as [|m IH]; intros a pre post k H.
  - rewrite schedule_0 in H. left.
    destruct pre as [|x pre]; simpl in H.
    + inversion H; auto.
    + inversion H as [[Hx Hnil]]. destruct pre; discriminate Hnil.
  - rewrite schedule_S in H.
    destruct pre as [|x [|y pre]]; cbn [app] in H.
    + left. injection H as Hk _. auto.
    + discriminate H.
    + injection H as Hx Hy Hrest. subst x y. right.
      destruct (IH _ _ _ _ Hrest) as [[-> ->] | [Hlt [pre' ->]]].
      * split; [lia|]. exists []. cbn [app].
        replace (Z.of_nat (S a) - 1) with (Z.of_nat a) by lia.
        replace (Z.of_nat (S a) - 2) with (Z.of_nat a - 1) by lia.
        reflexivity.
      * split; [lia|].
        exists (Attempt (Z.of_nat a)
                  :: Sleep (2 ^ (Z.of_nat a - 1) * 1000) :: pre').
        reflexivity.
Qed.

Section RetryFacts.

Variable B : Browser.
Variables method url : string.
Variable config : ExtraConfig.
Variable adapter : Z -> AdapterOutcome.
Variable n : Z.

Let call (k : Z) : Completion Response :=
  apiConnector B method url config (adapter k).

(** The loop over attempts [a], ..., [a + len - 1 = n] retries some [m]
    of them, and its result is the completion of attempt [a + m]. *)
Lemma retryLoop_run (len : nat) :
  forall (a : nat) (lastError : option JsError),
    (a + S len = S (Z.to_nat n))%nat ->
    exists m : nat,
      (m <= len)%nat /\
      retryLoop B method url config adapter n
                (map Z.of_nat (seq a (S len))) lastError
        = (schedule a m, call (Z.of_nat (a + m))) /\
      (forall j, (a <= j < a + m)%nat ->
         exists e, call (Z.of_nat j) = Throw (Some e) /\
                   notRetried e = false) /\
      (m = len \/ stops (call (Z.of_nat (a + m)))).
Proof.
  induction len as [|len IH]; intros a lastError Hlen.
  - exists 0%nat. rewrite schedule_0, Nat.add_0_r.
    split; [lia|]. split; [|split; [intros j Hj; lia | now left]].
    simpl. fold (call (Z.of_nat a)).
    destruct (apiConnector_cases B method url config (adapter (Z.of_nat a)))
      as [[r H]|[e H]]; fold (call (Z.of_nat a)) in H; rewrite H.
    + reflexivity.
    + destruct (notRetried e); [reflexivity|].
      replace (Z.of_nat a <? n) with false; [reflexivity|].
      symmetry; apply Z.ltb_ge. lia.
  - change (seq a (S (S len))) with (a :: seq (S a) (S len)).
    rewrite map_cons. cbn [retryLoop]. fold (call (Z.of_nat a)).
    destruct (apiConnector_cases B method url config (adapter (Z.of_nat a)))
      as [[r H]|[e H]]; fold (call (Z.of_nat a)) in H.
    + exists 0%nat. rewrite schedule_0, Nat.add_0_r, H.
      split; [lia|]. split; [reflexivity|].
      split; [intros j Hj; lia | right; exact I].
    + rewrite H. destruct (notRetried e) eqn:Hnr.
      * exists 0%nat. rewrite schedule_0, Nat.add_0_r, H.
        split; [lia|]. split; [reflexivity|].
        split; [intros j Hj; lia | right; exact Hnr].
      * destruct (IH (S a) (Some e)) as [m [Hm [Hrun [Hprev Hstop]]]];
          [lia|].
        exists (S m). rewrite Hrun, schedule_S.
        replace (Z.of_nat a <? n) with true
          by (symmetry; apply Z.ltb_lt; lia).
        rewrite Nat.add_succ_r. simpl Nat.add in *.
        split; [lia|]. split; [reflexivity|]. split.
        -- intros j Hj. destruct (Nat.eq_dec j a) as [->|Hne].
           ++ exists e. auto.
           ++ apply Hprev. lia.
        -- destruct Hstop as [-> | Hstop]; [now left | now right].
Qed.

(** The whole run, for an attempt budget of at least one. *)
Lemma retryWith_run :
  1 <= n ->
  exists k : Z,
    1 <= k <= n /\
    retryWith B method url config adapter n
      = (schedule 1 (Z.to_nat (k - 1)), call k) /\
    (forall j, 1 <= j < k ->
       exists e, call j = Throw (Some e) /\ notRetried e = false) /\
    (k = n \/ stops (call k)).
Proof.
  intros Hn. unfold retryWith, attempts_upto.
  destruct (Z.to_nat n) as [|len] eqn:Hlen; [lia|].
  destruct (@retryLoop_run len 1%nat None) as [m [Hm [Hrun [Hprev Hstop]]]];
    [lia|].
  exists (Z.of_nat (1 + m)). rewrite Hrun.
  replace (Z.to_nat (Z.of_nat (1 + m) - 1)) with m by lia.
  split; [lia|]. split; [reflexivity|]. split.
  - intros j Hj. specialize (Hprev (Z.to_nat j)).
    rewrite Z2Nat.id in Hprev by lia. apply Hprev. lia.
  - destruct Hstop as [-> | Hstop]; [left; lia | now right].
Qed.

End RetryFacts.

(** A failure that reaches [testAPIConnectivity] comes back as a value. *)
Lemma testAPIConnectivity_returns (B : Browser) (adapter : AdapterOutcome) :
  exists t,
    testAPIConnectivity B adapter = Normal t /\
    (success t = true <->
     exists r,
       apiConnector B "GET"
         (String.append (BASE_URL (getCurrentConfig (environment_of B)))
                        "/health")
         no_config adapter = Normal r).
Proof.
  unfold testAPIConnectivity.
  destruct (apiConnector_cases B "GET"
              (String.append (BASE_URL (getCurrentConfig (environment_of B)))
                             "/health") no_config adapter)
    as [[r H]|[e H]]; rewrite H; simpl; eexists; split; try reflexivity;
    simpl.
  - split; eauto.
  - split; [discriminate | intros [r Hr]; discriminate Hr].
Qed.

(** C1, as stated, fails: when the server answers 404, [apiConnector]
    rejects and [apiConnectorWithRetry] throws to its caller. *)
Lemma pipeline_throws_on_404 :
  (exists e,
     apiConnector (browser_at loc_local) "GET" "http://localhost:4000/health"
                  no_config (Responded not_found) = Throw (Some e)) /\
  (exists e,
     snd (apiConnectorWithRetry (browser_at loc_local) "GET"
            "http://localhost:4000/health" no_config always_404)
       = Throw (Some e)).
Proof. split; eexists; vm_compute; reflexivity. Qed.

(** C1, amended. Every failure of a request is surfaced to the caller of
    the pipeline as a rejection carrying an error object: [apiConnector]
    resolves with the response exactly when the adapter reports a response
    whose status is accepted, and rejects otherwise;
    [apiConnectorWithRetry] rejects whenever every attempt fails. Failures
    become a value with [success = false] only in the wrapper
    [testAPIConnectivity], which never throws. *)
Theorem pipeline_failures_reject
        (B : Browser) (method url : string) (config : ExtraConfig) :
  (forall adapter : AdapterOutcome,
     match adapter with
     | Responded r =>
         if (status r =? 0)
            || match validateStatus config with
               | Some f => f (status r)
               | None => default_validateStatus (status r)
               end
         then apiConnector B method url config adapter = Normal r
         else exists e,
                apiConnector B method url config adapter = Throw (Some e)
     | Failed _ =>
         exists e, apiConnector B method url config adapter = Throw (Some e)
     end) /\
  (forall adapter : Z -> AdapterOutcome,
     (forall k, exists e,
        apiConnector B method url config (adapter k) = Throw (Some e)) ->
     exists e,
       snd (apiConnectorWithRetry B method url config adapter)
         = Throw (Some e)) /\
  (forall adapter : AdapterOutcome,
     exists t,
       testAPIConnectivity B adapter = Normal t /\
       (success t = false <->
        exists e,
          apiConnector B "GET"
            (String.append (BASE_URL (getCurrentConfig (environment_of B)))
                           "/health")
            no_config adapter = Throw (Some e))).
Proof.
  split; [|split].
  - intros [r | e0].
    + unfold apiConnector, axiosInstance, settle; simpl.
      destruct (validateStatus config) as [f|];
        match goal with |- context [if ?c then _ else _] => destruct c end;
        try reflexivity; apply onResponseError_rejects.
    + unfold apiConnector, axiosInstance. apply onResponseError_rejects.
  - intros adapter Hfail. unfold apiConnectorWithRetry.
    set (n := RETRY_ATTEMPTS (getCurrentConfig (environment_of B))).
    assert (Hn : 1 <= n).
    { subst n. unfold getCurrentConfig.
      destruct (isDevelopment _); [|destruct (isProduction _)]; simpl; lia. }
    destruct (@retryWith_run B method url config adapter n Hn)
      as [k [_ [Hrun _]]].
    rewrite Hrun; simpl. apply Hfail.
  - intros adapter.
    destruct (testAPIConnectivity_returns B adapter) as [t [Ht Hs]].
    exists t. split; [exact Ht|].
    destruct (apiConnector_cases B "GET"
                (String.append (BASE_URL (getCurrentConfig (environment_of B)))
                               "/health") no_config adapter)
      as [[r H]|[e H]].
    + split.
      * intros Hf. assert (success t = true) by (apply Hs; eauto).
        congruence.
      * intros [e He]. congruence.
    + split; [eauto|]. intros _.
      destruct (success t) eqn:E; [|reflexivity].
      destruct (proj1 Hs eq_refl) as [r Hr]. congruence.
Qed.

Lemma pipeline_failures_reject_witness :
  exists e,
    snd (apiConnectorWithRetry (browser_at loc_local) "GET"
           "http://localhost:4000/health" no_config always_404)
      = Throw (Some e).
Proof.
  apply (proj1 (proj2 (pipeline_failures_reject (browser_at loc_local) "GET"
                         "http://localhost:4000/health" no_config))).
  intros k. eexists. vm_compute. reflexivity.
Defined.

(** The test the loop itself makes (lines 384-388): when the error the
    first call of [apiConnector] rejects with is flagged [corsError] or
    carries an HTTP status in [400,499], [apiConnectorWithRetry] makes
    exactly that one attempt, waits for nothing, and throws that error. *)
Theorem no_retry_on_cors_or_client_error
        (B : Browser) (method url : string) (config : ExtraConfig)
        (adapter : Z -> AdapterOutcome) (e : JsError) :
  apiConnector B method url config (adapter 1) = Throw (Some e) ->
  (corsError e = true \/
   exists r, response e = Some r /\ 400 <= status r <= 499) ->
  apiConnectorWithRetry B method url config adapter
    = ([Attempt 1], Throw (Some e)).
Proof.
  intros Hfirst Hkind.
  assert (Hnr : notRetried e = true).
  { unfold notRetried. destruct Hkind as [-> | [r [-> Hr]]]; [reflexivity|].
    apply orb_true_iff; right. apply andb_true_iff; split.
    - apply Z.leb_le; lia.
    - apply Z.ltb_lt; lia. }
  unfold apiConnectorWithRetry, retryWith, getCurrentConfig.
  destruct (isDevelopment _); [|destruct (isProduction _)];
    simpl RETRY_ATTEMPTS;
    (match goal with
     | |- context [attempts_upto ?n] =>
         change (attempts_upto n) with (1 :: tl (attempts_upto n))
     end);
    cbn [retryLoop]; rewrite Hfirst, Hnr; reflexivity.
Qed.

Lemma no_retry_on_cors_or_client_error_witness :
  apiConnectorWithRetry (browser_at loc_local) "GET"
    "http://localhost:4000/health" no_config always_404
  = ([Attempt 1],
     Throw (Some (bad_status_error
                    {| rc_method := "GET";
                       rc_url := "http://localhost:4000/health";
                       rc_withCredentials := true;
                       rc_timeout := 10000;
                       rc_validateStatus := default_validateStatus |}
                    not_found))).
Proof.
  apply no_retry_on_cors_or_client_error.
  - reflexivity.
  - right. exists not_found. split; [reflexivity | simpl; lia].
Defined.

(** The message axios gives a 4xx response does not read as a CORS error. *)
Lemma bad_status_not_cors (rc : RequestConfig) (r : Response) :
  400 <= status r <= 499 ->
  CORSErrorHandler.isCORSError (bad_status_error rc r) = false.
Proof.
  intros Hr.
  assert (Hall :
    forallb (fun i =>
      negb (CORSErrorHandler.isCORSError
              (bad_status_error rc
                 (response_with (400 + Z.of_nat i) "" ""))))
      (seq 0 100) = true) by (vm_compute; reflexivity).
  rewrite forallb_forall in Hall.
  specialize (Hall (Z.to_nat (status r - 400))).
  rewrite in_seq in Hall.
  replace (400 + Z.of_nat (Z.to_nat (status r - 400))) with (status r)
    in Hall by lia.
  apply negb_true_iff in Hall; [|lia].
  unfold CORSErrorHandler.isCORSError, bad_status_error in *; simpl in *.
  exact Hall.
Qed.

(** X25. A first answer with an HTTP status in [400,499] is never retried:
    [apiConnectorWithRetry] (called without extra config) makes exactly one
    attempt, waits for nothing, and throws the error that carries that
    response. *)
Lemma client_error_single_attempt
      (B : Browser) (method url : string) (adapter : Z -> AdapterOutcome)
      (r : Response) :
  adapter 1 = Responded r ->
  400 <= status r <= 499 ->
  exists e,
    apiConnectorWithRetry B method url no_config adapter
      = ([Attempt 1], Throw (Some e)) /\
    response e = Some r.
Proof.
  intros Hfirst Hr.
  assert (Hcall : exists e,
             apiConnector B method url no_config (adapter 1)
               = Throw (Some e) /\ response e = Some r).
  { rewrite Hfirst. unfold apiConnector, axiosInstance, settle; simpl.
    replace (status r =? 0) with false by (symmetry; apply Z.eqb_neq; lia).
    replace (default_validateStatus (status r)) with false.
    2:{ unfold default_validateStatus. symmetry.
        apply andb_false_iff; right. apply Z.ltb_ge; lia. }
    simpl. unfold onResponseError.
    rewrite bad_status_not_cors by exact Hr.
    destruct (CORSErrorHandler.isNetworkError _); eexists; split;
      reflexivity. }
  destruct Hcall as [e [Hcall He]]. exists e. split; [|exact He].
  unfold apiConnectorWithRetry, retryWith, getCurrentConfig.
  assert (Hnr : notRetried e = true).
  { unfold notRetried. rewrite He. apply orb_true_iff; right.
    apply andb_true_iff; split; [apply Z.leb_le | apply Z.ltb_lt]; lia. }
  destruct (isDevelopment _); [|destruct (isProduction _)];
    simpl RETRY_ATTEMPTS;
    (match goal with
     | |- context [attempts_upto ?n] =>
         change (attempts_upto n) with (1 :: tl (attempts_upto n))
     end);
    cbn [retryLoop]; rewrite Hcall, Hnr; reflexivity.
Qed.

(** A first failure that [isCORSError] recognises, on a request whose URL
    has an origin, is flagged by the interceptor and never retried. *)
Lemma cors_failure_single_attempt
      (B : Browser) (method url : string) (config : ExtraConfig)
      (adapter : Z -> AdapterOutcome) (e0 : JsError) (u o : string) :
  adapter 1 = Failed e0 ->
  CORSErrorHandler.isCORSError e0 = true ->
  config_url e0 = Some u -> u <> "" -> URL_origin B u = Some o ->
  exists e,
    apiConnectorWithRetry B method url config adapter
      = ([Attempt 1], Throw (Some e)) /\
    corsError e = true.
Proof.
  intros Hfirst Hcors Hu Hne Ho.
  assert (Hcall : exists e,
             apiConnector B method url config (adapter 1)
               = Throw (Some e) /\ corsError e = true).
  { rewrite Hfirst. unfold apiConnector, axiosInstance, onResponseError.
    rewrite Hcors, Hu. simpl truthy.
    replace (String.eqb u "") with false
      by (symmetry; now apply String.eqb_neq).
    unfold CORSErrorHandler.handleCORSError,
      CORSErrorHandler.logCORSDebugInfo, CORSErrorHandler.new_URL_origin.
    simpl negb. cbv iota. rewrite Ho. simpl.
    eexists; split; reflexivity. }
  destruct Hcall as [e [Hcall He]]. exists e. split; [|exact He].
  unfold apiConnectorWithRetry, retryWith, getCurrentConfig.
  assert (Hnr : notRetried e = true) by (unfold notRetried; now rewrite He).
  destruct (isDevelopment _); [|destruct (isProduction _)];
    simpl RETRY_ATTEMPTS;
    (match goal with
     | |- context [attempts_upto ?n] =>
         change (attempts_upto n) with (1 :: tl (attempts_upto n))
     end);
    cbn [retryLoop]; rewrite Hcall, Hnr; reflexivity.
Qed.

Lemma client_error_single_attempt_witness :
  exists e,
    apiConnectorWithRetry (browser_at loc_local) "GET"
      "http://localhost:4000/health" no_config always_404
      = ([Attempt 1], Throw (Some e)) /\
    response e = Some not_found.
Proof.
  apply (@client_error_single_attempt (browser_at loc_local) "GET"
           "http://localhost:4000/health" always_404 not_found).
  - reflexivity.
  - simpl. lia.
Defined.

(** When the request URL has no origin, a failure [isCORSError] recognises
    never reaches the loop as a CORS error: [handleCORSError] throws the
    [TypeError] of [new URL], the interceptor rejects with it, and the loop,
    seeing neither [corsError] nor a response, retries. *)
Lemma cors_failure_without_origin_retried
      (B : Browser) (method url : string) (config : ExtraConfig)
      (adapter : Z -> AdapterOutcome) (e0 : JsError) :
  (forall k, adapter k = Failed e0) ->
  CORSErrorHandler.isCORSError e0 = true ->
  URL_origin B (reported_url e0) = None ->
  attempts_made (fst (apiConnectorWithRetry B method url config adapter))
    = RETRY_ATTEMPTS (getCurrentConfig (environment_of B)) /\
  snd (apiConnectorWithRetry B method url config adapter)
    = Throw (Some (TypeError "Failed to construct 'URL': Invalid URL")).
Proof.
  intros Hall Hcors Ho.
  assert (Hcall : forall k,
    apiConnector B method url config (adapter k)
    = Throw (Some (TypeError "Failed to construct 'URL': Invalid URL"))).
  { intros k. rewrite Hall. unfold apiConnector, axiosInstance, onResponseError.
    rewrite Hcors. fold (reported_url e0).
    unfold CORSErrorHandler.handleCORSError,
      CORSErrorHandler.logCORSDebugInfo, CORSErrorHandler.new_URL_origin.
    rewrite Ho. reflexivity. }
  unfold apiConnectorWithRetry.
  set (n := RETRY_ATTEMPTS (getCurrentConfig (environment_of B))).
  assert (Hn : 1 <= n).
  { subst n. unfold getCurrentConfig.
    destruct (isDevelopment _); [|destruct (isProduction _)]; simpl; lia. }
  destruct (@retryWith_run B method url config adapter n Hn)
    as [k [Hk [Hrun [_ Hstop]]]].
  rewrite Hrun. cbn [fst snd]. rewrite Hcall in *.
  split; [|reflexivity].
  rewrite attempts_made_schedule.
  destruct Hstop as [-> | Hstop]; [lia | discriminate Hstop].
Qed.

(** C3, at a failing input. On [localhost] (budget 3) a request to the
    relative URL [/api/v1/course/list] whose every attempt fails with an
    error that [isCORSError] classifies as a CORS error (its message
    contains [CORS]) is not stopped after the first attempt: the
    interceptor's [handleCORSError] throws on [new URL], each call of
    [apiConnector] rejects with that [TypeError] instead of an error flagged
    [corsError], and [apiConnectorWithRetry] makes all three attempts, with
    waits of 1000 and 2000 ms, before it throws. *)
Theorem cors_error_on_relative_url_is_retried :
  CORSErrorHandler.isCORSError relative_cors_error = true /\
  apiConnector (browser_at loc_local) "GET" "/api/v1/course/list" no_config
               (Failed relative_cors_error)
    = Throw (Some (TypeError "Failed to construct 'URL': Invalid URL")) /\
  apiConnectorWithRetry (browser_at loc_local) "GET" "/api/v1/course/list"
                        no_config (fun _ => Failed relative_cors_error)
    = ([Attempt 1; Sleep 1000; Attempt 2; Sleep 2000; Attempt 3],
       Throw (Some (TypeError "Failed to construct 'URL': Invalid URL"))).
Proof. repeat split; vm_compute; reflexivity. Qed.

(** C4. With an attempt budget [n >= 1], whatever the transport does at
    each attempt, [apiConnectorWithRetry] makes some number
    [k <= n] of attempts; every attempt before the [k]-th failed with a
    retryable error; the run ends with the [k]-th attempt and its result is
    that attempt's completion (so the first success is returned at once,
    and after [n] failures the last error is thrown); and it stops before
    [n] only on a success or an error that is not retried. With budget 3
    and a transport that fails twice (retryably) and then succeeds, it
    returns that success after exactly 3 attempts. *)
Theorem retry_budget_and_last_outcome :
  (forall (B : Browser) (method url : string) (config : ExtraConfig)
          (adapter : Z -> AdapterOutcome) (n : Z),
     1 <= n ->
     exists k : Z,
       1 <= k <= n /\
       attempts_made (fst (retryWith B method url config adapter n)) = k /\
       (exists pre,
          fst (retryWith B method url config adapter n)
            = (pre ++ [Attempt k])%list) /\
       snd (retryWith B method url config adapter n)
         = apiConnector B method url config (adapter k) /\
       (forall j, 1 <= j < k ->
          exists e,
            apiConnector B method url config (adapter j) = Throw (Some e) /\
            notRetried e = false) /\
       (k = n \/ stops (apiConnector B method url config (adapter k)))) /\
  (forall (B : Browser) (method url : string) (config : ExtraConfig)
          (adapter : Z -> AdapterOutcome) (e1 e2 : JsError) (r : Response),
     apiConnector B method url config (adapter 1) = Throw (Some e1) ->
     notRetried e1 = false ->
     apiConnector B method url config (adapter 2) = Throw (Some e2) ->
     notRetried e2 = false ->
     apiConnector B method url config (adapter 3) = Normal r ->
     retryWith B method url config adapter 3
       = ([Attempt 1; Sleep 1000; Attempt 2; Sleep 2000; Attempt 3],
          Normal r)) /\
  (forall (B : Browser) (method url : string) (config : ExtraConfig)
          (adapter : Z -> AdapterOutcome),
     apiConnectorWithRetry B method url config adapter
       = retryWith B method url config adapter
           (RETRY_ATTEMPTS (getCurrentConfig (environment_of B))) /\
     1 <= RETRY_ATTEMPTS (getCurrentConfig (environment_of B))).
Proof.
  split; [|split].
  - intros B method url config adapter n Hn.
    destruct (@retryWith_run B method url config adapter n Hn)
      as [k [Hk [Hrun [Hprev Hstop]]]].
    exists k. rewrite Hrun; simpl.
    split; [exact Hk|]. split; [|split; [|split; [|split]]].
    + rewrite attempts_made_schedule. lia.
    + destruct (schedule_last 1 (Z.to_nat (k - 1))) as [pre Hpre].
      exists pre. rewrite Hpre. do 3 f_equal. lia.
    + reflexivity.
    + exact Hprev.
    + exact Hstop.
  - intros B method url config adapter e1 e2 r H1 Hn1 H2 Hn2 H3.
    unfold retryWith. change (attempts_upto 3) with [1; 2; 3].
    cbn [retryLoop]. rewrite H1, Hn1, H2, Hn2, H3. reflexivity.
  - intros B method url config adapter. split; [reflexivity|].
    unfold getCurrentConfig.
    destruct (isDevelopment _); [|destruct (isProduction _)]; simpl; lia.
Qed.

Lemma retry_budget_and_last_outcome_witness :
  attempts_made
    (fst (retryWith (browser_at loc_local) "GET"
            "http://localhost:4000/health" no_config fails_twice 3)) <= 3 /\
  retryWith (browser_at loc_local) "GET" "http://localhost:4000/health"
            no_config fails_twice 3
    = ([Attempt 1; Sleep 1000; Attempt 2; Sleep 2000; Attempt 3],
       Normal health_ok).
Proof.
  split.
  - destruct (proj1 retry_budget_and_last_outcome (browser_at loc_local)
                "GET" "http://localhost:4000/health" no_config fails_twice 3)
      as [k [Hk [Hmade _]]]; [lia|].
    rewrite Hmade. apply Hk.
  - eapply (proj1 (proj2 retry_budget_and_last_outcome));
      try (vm_compute; reflexivity).
Defined.

(** C5. In every run of the retry loop, attempt 1 comes first, with no
    wait before it, and each attempt [k >= 2] comes right after attempt
    [k - 1] and one wait of exactly [2^(k-2) * 1000] milliseconds
    (1000 before attempt 2, 2000 before attempt 3, 4000 before attempt 4). *)
Theorem backoff_before_attempt
        (B : Browser) (method url : string) (config : ExtraConfig)
        (adapter : Z -> AdapterOutcome) (n : Z)
        (pre post : list Event) (k : Z) :
  fst (retryWith B method url config adapter n)
    = (pre ++ Attempt k :: post)%list ->
  (k = 1 /\ pre = []) \/
  (2 <= k /\
   exists pre',
     pre = (pre' ++ [Attempt (k - 1); Sleep (2 ^ (k - 2) * 1000)])%list).
Proof.
  intros H.
  destruct (Z_lt_le_dec n 1) as [Hn | Hn].
  - unfold retryWith, attempts_upto in H.
    replace (Z.to_nat n) with 0%nat in H by lia. simpl in H.
    destruct pre; discriminate H.
  - destruct (@retryWith_run B method url config adapter n Hn)
      as [j [_ [Hrun _]]].
    rewrite Hrun in H; simpl in H.
    destruct (schedule_before_attempt _ _ _ _ _ H)
      as [[-> ->] | [Hlt Hpre]].
    + left; split; reflexivity.
    + right; split; [lia | exact Hpre].
Qed.

Lemma backoff_before_attempt_witness :
  (4 = 1 /\ [Attempt 1; Sleep 1000; Attempt 2; Sleep 2000; Attempt 3;
             Sleep 4000] = []) \/
  (2 <= 4 /\
   exists pre',
     [Attempt 1; Sleep 1000; Attempt 2; Sleep 2000; Attempt 3; Sleep 4000]
     = (pre' ++ [Attempt (4 - 1); Sleep (2 ^ (4 - 2) * 1000)])%list).
Proof.
  apply (@backoff_before_attempt (browser_at loc_local) "GET"
           "http://localhost:4000/health" no_config
           (fun _ => Failed network_error) 5
           [Attempt 1; Sleep 1000; Attempt 2; Sleep 2000; Attempt 3;
            Sleep 4000]
           [Sleep 8000; Attempt 5] 4).
  vm_compute. reflexivity.
Defined.

(** ** The diagnostics *)

Lemma testCORSConnection_cases (B : Browser) (baseUrl : string)
      (fetched : FetchOutcome) :
  exists c : bool + JsError,
    CORSErrorHandler.testCORSConnection B baseUrl fetched = check_outcome c.
Proof.
  unfold CORSErrorHandler.testCORSConnection,
    CORSErrorHandler.logCORSDebugInfo, CORSErrorHandler.new_URL_origin.
  destruct fetched as [r | e]; simpl.
  - now exists (inl true).
  - destruct (URL_origin B baseUrl); simpl.
    + now exists (inl false).
    + eexists (inr _). reflexivity.
Qed.

Lemma quickDiagnosticWith_keys (B : Browser) (c : bool + JsError)
      (a : ApiTest + JsError) :
  keys_of (quickDiagnosticWith B (check_outcome c) (check_outcome a))
    = Some ["environment"; "cors"; "apiConnectivity"].
Proof. destruct c as [b | e], a as [t | e']; reflexivity. Qed.

Lemma quickDiagnosticWith_apiConnectivity (B : Browser) (c : bool + JsError)
      (t : ApiTest) :
  passed_of "apiConnectivity"
            (quickDiagnosticWith B (check_outcome c) (Normal t))
    = Some (success t).
Proof. destruct c as [b | e]; reflexivity. Qed.

Lemma quickDiagnostic_apiConnectivity (B : Browser) (corsFetch : FetchOutcome)
      (adapter : AdapterOutcome) :
  exists t,
    testAPIConnectivity B adapter = Normal t /\
    passed_of "apiConnectivity" (quickDiagnostic B corsFetch adapter)
      = Some (success t).
Proof.
  destruct (testAPIConnectivity_returns B adapter) as [t [Ht _]].
  exists t. split; [exact Ht|]. unfold quickDiagnostic. rewrite Ht.
  destruct (testCORSConnection_cases B
              (BASE_URL (getCurrentConfig (environment_of B))) corsFetch)
    as [c ->].
  apply quickDiagnosticWith_apiConnectivity.
Qed.

(** C7. Whatever the two network checks do, [quickDiagnostic] returns
    normally, and the [tests] of its report have exactly the three keys
    [environment], [cors], [apiConnectivity], in that order, each bound to
    a [{passed, details}] entry. The same holds of its body for any way the
    two awaited checks may return or throw an error. *)
Theorem quickDiagnostic_three_entries :
  (forall (B : Browser) (corsFetch : FetchOutcome) (adapter : AdapterOutcome),
     keys_of (quickDiagnostic B corsFetch adapter)
       = Some ["environment"; "cors"; "apiConnectivity"]) /\
  (forall (B : Browser) (c : bool + JsError) (a : ApiTest + JsError),
     keys_of (quickDiagnosticWith B (check_outcome c) (check_outcome a))
       = Some ["environment"; "cors"; "apiConnectivity"]).
Proof.
  split.
  - intros B corsFetch adapter. unfold quickDiagnostic.
    destruct (testCORSConnection_cases B
                (BASE_URL (getCurrentConfig (environment_of B))) corsFetch)
      as [c ->].
    destruct (testAPIConnectivity_returns B adapter) as [t [-> _]].
    apply (quickDiagnosticWith_keys B c (inl t)).
  - exact quickDiagnosticWith_keys.
Qed.

(** C8, as stated, fails: the health endpoint answers, with status 404,
    and the [apiConnectivity] check reports [passed: false]. *)
Lemma apiConnectivity_fails_on_404 :
  passed_of "apiConnectivity"
    (quickDiagnostic (browser_at loc_local) (Resolved health_ok)
                     (Responded not_found))
  = Some false.
Proof. vm_compute. reflexivity. Qed.

(** C8, amended. For every HTTP response to [GET {baseUrl}/health], the
    [apiConnectivity] check reports [passed: true] when the status is in
    [200,299] and [passed: false] for any other (non-zero) status; in
    particular, with base URL [http://localhost:4000], a 200 response with
    body [{"status":"ok"}] yields [passed: true]. *)
Theorem apiConnectivity_passes_on_2xx :
  (forall (B : Browser) (corsFetch : FetchOutcome) (r : Response),
     (200 <= status r <= 299 ->
      passed_of "apiConnectivity"
                (quickDiagnostic B corsFetch (Responded r)) = Some true) /\
     (status r <> 0 -> ~ 200 <= status r <= 299 ->
      passed_of "apiConnectivity"
                (quickDiagnostic B corsFetch (Responded r)) = Some false)) /\
  (forall (B : Browser) (corsFetch : FetchOutcome),
     hostname (location B) = "localhost" ->
     BASE_URL (getCurrentConfig (environment_of B))
       = "http://localhost:4000" /\
     passed_of "apiConnectivity"
               (quickDiagnostic B corsFetch (Responded health_ok))
       = Some true).
Proof.
  assert (Hgen : forall B corsFetch r,
    passed_of "apiConnectivity" (quickDiagnostic B corsFetch (Responded r))
    = Some ((status r =? 0) || default_validateStatus (status r))).
  { intros B corsFetch r.
    destruct (quickDiagnostic_apiConnectivity B corsFetch (Responded r))
      as [t [Ht ->]]. f_equal.
    revert Ht. unfold testAPIConnectivity, apiConnector, axiosInstance, settle.
    simpl.
    destruct ((status r =? 0) || default_validateStatus (status r)); simpl.
    - intros Ht; injection Ht as <-; reflexivity.
    - destruct (onResponseError_rejects B
        (bad_status_error
           {| rc_method := "GET";
              rc_url := String.append
                          (BASE_URL (getCurrentConfig (environment_of B)))
                          "/health";
              rc_withCredentials := true;
              rc_timeout := TIMEOUT (getCurrentConfig (environment_of B));
              rc_validateStatus := default_validateStatus |} r))
        as [e ->].
      simpl. intros Ht; injection Ht as <-; reflexivity. }
  split.
  - intros B corsFetch r. rewrite Hgen. unfold default_validateStatus. split.
    + intros Hr. f_equal. apply orb_true_iff; right.
      apply andb_true_iff; split; [apply Z.leb_le | apply Z.ltb_lt]; lia.
    + intros H0 Hr. f_equal. apply orb_false_iff; split.
      * apply Z.eqb_neq; exact H0.
      * apply andb_false_iff.
        destruct (Z_lt_le_dec (status r) 200);
          [left; apply Z.leb_gt | right; apply Z.ltb_ge]; lia.
  - intros B corsFetch Hhost. split.
    + unfold getCurrentConfig, environment_of, getEnvironment; simpl.
      rewrite Hhost. reflexivity.
    + rewrite Hgen. reflexivity.
Qed.

Lemma apiConnectivity_passes_on_2xx_witness :
  passed_of "apiConnectivity"
    (quickDiagnostic (browser_at loc_vercel) (Resolved health_ok)
       (Responded (response_with 204 "No Content" ""))) = Some true /\
  passed_of "apiConnectivity"
    (quickDiagnostic (browser_at loc_vercel) (Resolved health_ok)
       (Responded (response_with 503 "Service Unavailable" ""))) = Some false /\
  passed_of "apiConnectivity"
    (quickDiagnostic (browser_at loc_local) (Resolved health_ok)
       (Responded health_ok)) = Some true.
Proof.
  split; [|split].
  - apply (proj1 apiConnectivity_passes_on_2xx). simpl; lia.
  - apply (proj1 apiConnectivity_passes_on_2xx); simpl; lia.
  - apply (proj2 apiConnectivity_passes_on_2xx). reflexivity.
Defined.

(** ** The timeout timer of [corsAwareFetch] *)

Lemma clearTimeout_not_pending (id : nat) (t : Timers) :
  ~ pending id (clearTimeout id t).
Proof.
  intros [due H]. unfold clearTimeout in H; simpl in H.
  apply filter_In in H. destruct H as [_ H]. simpl in H.
  rewrite Nat.eqb_refl in H. discriminate H.
Qed.

Lemma corsAwareFetch_clears (B : Browser) (net : Transport) (t : Timers) :
  exists t2,
    snd (corsAwareFetch B net t) = clearTimeout (next_timer t) t2.
Proof.
  unfold corsAwareFetch, setTimeout.
  destruct (await_fetch_abortable _ net _) as [[response | [e |]] t2];
    [| destruct (String.eqb (name e) "AbortError") |];
    exists t2; reflexivity.
Qed.

(** C9. On every path of [corsAwareFetch] (the response arrives, the
    transport fails, the timer aborts the request) the timeout timer the
    call armed is no longer pending when the call completes, so it cannot
    fire afterwards; and when the transport takes longer than the
    configured [TIMEOUT], the call fails with the timeout error
    [Request timeout after <TIMEOUT>ms], not with any other error. *)
Theorem corsAwareFetch_releases_timer
        (B : Browser) (net : Transport) (t : Timers) :
  ~ pending (next_timer t) (snd (corsAwareFetch B net t)) /\
  (TIMEOUT (getCurrentConfig (environment_of B)) < latency net ->
   fst (corsAwareFetch B net t)
     = Throw (Some (Error (timeout_message
                             (getCurrentConfig (environment_of B)))))).
Proof.
  split.
  - destruct (corsAwareFetch_clears B net t) as [t2 ->].
    apply clearTimeout_not_pending.
  - intros Hslow.
    unfold corsAwareFetch, setTimeout, await_fetch_abortable, due_of.
    cbn [armed find fst snd now]. rewrite Nat.eqb_refl. cbn [snd].
    replace (now t + latency net
               <=? now t + TIMEOUT (getCurrentConfig (environment_of B)))
      with false by (symmetry; apply Z.leb_gt; lia).
    reflexivity.
Qed.

Lemma corsAwareFetch_releases_timer_witness :
  fst (corsAwareFetch (browser_at loc_local) hanging no_timers)
    = Throw (Some (Error "Request timeout after 10000ms")) /\
  ~ pending 0 (snd (corsAwareFetch (browser_at loc_local) hanging no_timers)).
Proof.
  split.
  - apply (proj2 (corsAwareFetch_releases_timer
                    (browser_at loc_local) hanging no_timers)).
    simpl. lia.
  - apply (proj1 (corsAwareFetch_releases_timer
                    (browser_at loc_local) hanging no_timers)).
Defined.

(** ** The admin probe *)



(* ================================================================== *)
(** * Further properties *)

(** ** Environment resolution *)

(** X1. [getBaseURL] is the local backend exactly for the hostnames
    [localhost] and [127.0.0.1] and the production backend for every other
    hostname; the staging backend is never selected. *)
Theorem getBaseURL_by_hostname (location : Location) :
  (is_local (hostname location) ->
   getBaseURL (getEnvironment location) = "http://localhost:4000") /\
  (~ is_local (hostname location) ->
   getBaseURL (getEnvironment location) = "https://beejalms.onrender.com") /\
  getBaseURL (getEnvironment location)
    <> s_BASE_URL API_CONFIG.staging.
Proof.
  unfold getBaseURL, getCurrentConfig.
  pose proof (isDevelopment_iff location) as Hd.
  destruct (isDevelopment (getEnvironment location));
    [|destruct (isProduction (getEnvironment location))];
    (split; [|split]); simpl; intros; try reflexivity; try discriminate;
    exfalso; intuition congruence.
Qed.

Lemma getBaseURL_by_hostname_witness :
  getBaseURL (getEnvironment loc_local) = "http://localhost:4000" /\
  getBaseURL (getEnvironment loc_other) = "https://beejalms.onrender.com".
Proof.
  split.
  - apply (proj1 (getBaseURL_by_hostname loc_local)). left; reflexivity.
  - apply (proj1 (proj2 (getBaseURL_by_hostname loc_other))).
    intros [H|H]; discriminate H.
Defined.

(** X2. No hostname is classified both as development and as production,
    so the order of the two tests in [getCurrentConfig] never decides; and
    whatever the hostname, the attempt budget is 2 or 3 and the timeout
    10000 or 15000 milliseconds. *)
Theorem environment_flags_exclusive (location : Location) :
  isDevelopment (getEnvironment location)
    && isProduction (getEnvironment location) = false /\
  (RETRY_ATTEMPTS (getCurrentConfig (getEnvironment location)) = 3 /\
   TIMEOUT (getCurrentConfig (getEnvironment location)) = 10000 \/
   RETRY_ATTEMPTS (getCurrentConfig (getEnvironment location)) = 2 /\
   TIMEOUT (getCurrentConfig (getEnvironment location)) = 15000).
Proof.
  split.
  - pose proof (isDevelopment_iff location) as Hd.
    pose proof (isProduction_iff location) as Hp.
    pose proof (@local_not_hosted (hostname location)) as Hx.
    destruct (isDevelopment (getEnvironment location));
      destruct (isProduction (getEnvironment location)); try reflexivity.
    exfalso. apply Hx; [apply Hd | apply Hp]; reflexivity.
  - unfold getCurrentConfig.
    destruct (isDevelopment _); [|destruct (isProduction _)]; simpl; auto.
Qed.

(** ** The response interceptor and the retry loop *)

Lemma budget_cases (B : Browser) :
  RETRY_ATTEMPTS (getCurrentConfig (environment_of B)) = 3 \/
  RETRY_ATTEMPTS (getCurrentConfig (environment_of B)) = 2.
Proof.
  unfold getCurrentConfig.
  destruct (isDevelopment _); [|destruct (isProduction _)]; simpl; auto.
Qed.

(** A first attempt that fails with an error the loop does not retry ends
    the run. *)
Lemma single_attempt (B : Browser) (method url : string)
      (config : ExtraConfig) (adapter : Z -> AdapterOutcome) (e : JsError) :
  apiConnector B method url config (adapter 1) = Throw (Some e) ->
  notRetried e = true ->
  apiConnectorWithRetry B method url config adapter
    = ([Attempt 1], Throw (Some e)).
Proof.
  intros Hcall Hnr. unfold apiConnectorWithRetry, retryWith.
  destruct (budget_cases B) as [-> | ->];
    (match goal with
     | |- context [attempts_upto ?n] =>
         change (attempts_upto n) with (1 :: tl (attempts_upto n))
     end);
    cbn [retryLoop]; rewrite Hcall, Hnr; reflexivity.
Qed.

Lemma onResponseError_cors (B : Browser) (error : JsError) (o : string) :
  CORSErrorHandler.isCORSError error = true ->
  URL_origin B (reported_url error) = Some o ->
  onResponseError B error =
  Throw (Some
    {| name := name error; message := message error; code := code error;
       response := response error; request := request error;
       config_url := config_url error; corsError := true;
       networkError := networkError error;
       userFriendlyMessage :=
         Some "Unable to connect to server. This appears to be a server configuration issue." |}).
Proof.
  intros Hcors Ho. unfold onResponseError. rewrite Hcors.
  fold (reported_url error).
  unfold CORSErrorHandler.handleCORSError, CORSErrorHandler.logCORSDebugInfo,
    CORSErrorHandler.new_URL_origin.
  rewrite Ho. reflexivity.
Qed.

Lemma onResponseError_not_cors (B : Browser) (error : JsError) :
  CORSErrorHandler.isCORSError error = false ->
  exists e,
    onResponseError B error = Throw (Some e) /\
    message e = message error /\ code e = code error /\
    response e = response error /\ corsError e = corsError error /\
    networkError e
      = networkError error || CORSErrorHandler.isNetworkError error.
Proof.
  intros Hcors. unfold onResponseError. rewrite Hcors.
  destruct (CORSErrorHandler.isNetworkError error); eexists;
    (split; [reflexivity|]); simpl; repeat split;
    rewrite ?orb_true_r, ?orb_false_r; reflexivity.
Qed.

(** X3. The response interceptor forwards every error with its message,
    code and response unchanged. It sets [corsError] exactly on the errors
    [isCORSError] recognises, and [networkError] exactly on those
    [isNetworkError] recognises and [isCORSError] does not: the CORS test
    takes precedence. The one other outcome is the [TypeError] of
    [new URL(url)] for a CORS error whose request URL has no origin. *)
Theorem onResponseError_flags (B : Browser) (error : JsError) :
  (exists e,
     onResponseError B error = Throw (Some e) /\
     message e = message error /\ code e = code error /\
     response e = response error /\
     corsError e = corsError error || CORSErrorHandler.isCORSError error /\
     networkError e
       = networkError error
         || (negb (CORSErrorHandler.isCORSError error)
             && CORSErrorHandler.isNetworkError error)) \/
  (CORSErrorHandler.isCORSError error = true /\
   URL_origin B (reported_url error) = None /\
   onResponseError B error
     = Throw (Some (TypeError "Failed to construct 'URL': Invalid URL"))).
Proof.
  destruct (CORSErrorHandler.isCORSError error) eqn:Hcors.
  - destruct (URL_origin B (reported_url error)) as [o|] eqn:Ho.
    + left. rewrite (onResponseError_cors B error Hcors Ho).
      eexists; split; [reflexivity|]. simpl.
      rewrite !orb_true_r, orb_false_r. repeat split.
    + right. repeat split. unfold onResponseError. rewrite Hcors.
      fold (reported_url error).
      unfold CORSErrorHandler.handleCORSError,
        CORSErrorHandler.logCORSDebugInfo, CORSErrorHandler.new_URL_origin.
      rewrite Ho. reflexivity.
  - left. destruct (onResponseError_not_cors B error Hcors)
      as [e [He [Hm [Hc [Hr [Hco Hn]]]]]].
    exists e. rewrite orb_false_r. simpl. auto 10.
Qed.

(** X4. A failure that comes with a request, without a response and without
    an error code is treated as a CORS error whatever its message says:
    when it is the first failure, on a request whose URL has an origin,
    [apiConnectorWithRetry] makes a single attempt and throws the error
    flagged [corsError], with the network flag left as it was. *)
Theorem uncoded_failure_not_retried
        (B : Browser) (method url : string) (config : ExtraConfig)
        (adapter : Z -> AdapterOutcome) (e0 : JsError) (o : string) :
  adapter 1 = Failed e0 ->
  response e0 = None -> request e0 = true -> truthy (code e0) = false ->
  URL_origin B (reported_url e0) = Some o ->
  exists e,
    apiConnectorWithRetry B method url config adapter
      = ([Attempt 1], Throw (Some e)) /\
    corsError e = true /\ networkError e = networkError e0 /\
    message e = message e0.
Proof.
  intros Hfirst Hresp Hreq Hcode Ho.
  assert (Hcors : CORSErrorHandler.isCORSError e0 = true).
  { unfold CORSErrorHandler.isCORSError.
    rewrite Hresp, Hreq, Hcode. simpl. apply orb_true_r. }
  pose proof (onResponseError_cors B e0 Hcors Ho) as Hcall.
  eexists. split; [apply single_attempt|].
  - rewrite Hfirst. unfold apiConnector, axiosInstance. exact Hcall.
  - reflexivity.
  - repeat split.
Qed.

Lemma uncoded_failure_not_retried_witness :
  exists e,
    apiConnectorWithRetry (browser_at loc_other) "GET"
      "https://beejalms.onrender.com/health" no_config
      (fun _ => Failed uncoded_network_error)
      = ([Attempt 1], Throw (Some e)) /\
    corsError e = true /\ networkError e = false /\
    message e = Some "Network Error".
Proof.
  apply (@uncoded_failure_not_retried (browser_at loc_other) "GET"
           "https://beejalms.onrender.com/health" no_config
           (fun _ => Failed uncoded_network_error) uncoded_network_error
           "https://beejalms.onrender.com");
    reflexivity.
Defined.

Lemma total_wait_schedule (m : nat) :
  forall b : nat,
    total_wait (schedule (S b) m)
      = (2 ^ Z.of_nat (b + m) - 2 ^ Z.of_nat b) * 1000.
Proof.
  induction m as [|m IH]; intros b.
  - rewrite schedule_0, Nat.add_0_r. simpl. lia.
  - rewrite schedule_S. cbn [total_wait fold_right].
    fold (total_wait (schedule (S (S b)) m)). rewrite IH.
    replace (Z.of_nat (S b) - 1) with (Z.of_nat b) by lia.
    replace (Z.of_nat (S b + m)) with (Z.of_nat (b + S m)) by lia.
    rewrite (Nat2Z.inj_succ b), Z.pow_succ_r by lia. lia.
Qed.

(** X7. The waits of a run add up to [(2^(k-1) - 1) * 1000] milliseconds,
    [k] being the number of attempts made; with budget [n] that is at most
    [(2^(n-1) - 1) * 1000], and [apiConnectorWithRetry] never waits more
    than 3000 milliseconds in all. *)
Theorem retry_total_wait :
  (forall (B : Browser) (method url : string) (config : ExtraConfig)
          (adapter : Z -> AdapterOutcome) (n : Z),
     1 <= n ->
     total_wait (fst (retryWith B method url config adapter n))
       = (2 ^ (attempts_made
                 (fst (retryWith B method url config adapter n)) - 1) - 1)
         * 1000 /\
     total_wait (fst (retryWith B method url config adapter n))
       <= (2 ^ (n - 1) - 1) * 1000) /\
  (forall (B : Browser) (method url : string) (config : ExtraConfig)
          (adapter : Z -> AdapterOutcome),
     0 <= total_wait (fst (apiConnectorWithRetry B method url config adapter))
       <= 3000).
Proof.
  assert (Hgen : forall B method url config adapter n, 1 <= n ->
    exists k, 1 <= k <= n /\
      attempts_made (fst (retryWith B method url config adapter n)) = k /\
      total_wait (fst (retryWith B method url config adapter n))
        = (2 ^ (k - 1) - 1) * 1000).
  { intros B method url config adapter n Hn.
    destruct (@retryWith_run B method url config adapter n Hn)
      as [k [Hk [Hrun _]]].
    exists k. rewrite Hrun; simpl fst.
    rewrite attempts_made_schedule, (total_wait_schedule _ 0).
    rewrite Nat.add_0_l, Z2Nat.id by lia. simpl (2 ^ Z.of_nat 0).
    split; [exact Hk|]. split; [lia | reflexivity]. }
  split.
  - intros B method url config adapter n Hn.
    destruct (Hgen B method url config adapter n Hn) as [k [Hk [-> ->]]].
    split; [reflexivity|].
    assert (2 ^ (k - 1) <= 2 ^ (n - 1))
      by (apply Z.pow_le_mono_r; lia).
    lia.
  - intros B method url config adapter. unfold apiConnectorWithRetry.
    destruct (budget_cases B) as [-> | ->].
    + destruct (Hgen B method url config adapter 3) as [k [Hk [_ ->]]];
        [lia|].
      assert (k = 1 \/ k = 2 \/ k = 3) as [-> | [-> | ->]] by lia;
        simpl; lia.
    + destruct (Hgen B method url config adapter 2) as [k [Hk [_ ->]]];
        [lia|].
      assert (k = 1 \/ k = 2) as [-> | ->] by lia; simpl; lia.
Qed.

Lemma retry_total_wait_witness :
  total_wait (fst (retryWith (browser_at loc_local) "GET"
                     "http://localhost:4000/health" no_config
                     (fun _ => Failed network_error) 4))
    <= (2 ^ (4 - 1) - 1) * 1000.
Proof.
  apply (proj1 retry_total_wait (browser_at loc_local) "GET"
           "http://localhost:4000/health" no_config
           (fun _ => Failed network_error) 4).
  lia.
Defined.

Lemma retryWith_all_retried (B : Browser) (method url : string)
      (config : ExtraConfig) (adapter : Z -> AdapterOutcome) (n : Z) :
  1 <= n ->
  (forall k, 1 <= k <= n ->
     exists e,
       apiConnector B method url config (adapter k) = Throw (Some e) /\
       notRetried e = false) ->
  retryWith B method url config adapter n
    = (schedule 1 (Z.to_nat (n - 1)),
       apiConnector B method url config (adapter n)).
Proof.
  intros Hn Hall.
  destruct (@retryWith_run B method url config adapter n Hn)
    as [k [Hk [Hrun [_ Hstop]]]].
  destruct Hstop as [-> | Hstop]; [exact Hrun|].
  destruct (Hall k Hk) as [e [He Hnr]]. rewrite He in Hstop.
  simpl in Hstop. congruence.
Qed.

Lemma plain_failure_call (B : Browser) (method url : string)
      (config : ExtraConfig) (o : AdapterOutcome) :
  plain_failure o ->
  exists e0 e,
    o = Failed e0 /\
    apiConnector B method url config o = Throw (Some e) /\
    notRetried e = false /\
    message e = message e0 /\ code e = code e0 /\ corsError e = false /\
    networkError e
      = networkError e0 || CORSErrorHandler.isNetworkError e0.
Proof.
  destruct o as [r | e0]; simpl; [intros []|].
  intros [Hcors [Hflag Hresp]].
  destruct (onResponseError_not_cors B e0 Hcors)
    as [e [He [Hm [Hc [Hr [Hco Hn]]]]]].
  exists e0, e. split; [reflexivity|]. split; [exact He|].
  split; [|rewrite Hco; auto].
  unfold notRetried. now rewrite Hco, Hflag, Hr, Hresp.
Qed.

(** X5. Failures without a response that [isCORSError] does not recognise
    (axios timeouts and network errors that carry an error code, for
    instance) are always retried: when every attempt fails that way,
    [apiConnectorWithRetry] uses its whole budget and throws the error of
    the last attempt, with the message and code the transport gave it and
    no [corsError] flag. *)
Theorem plain_failures_use_budget
        (B : Browser) (method url : string) (config : ExtraConfig)
        (adapter : Z -> AdapterOutcome) :
  (forall k, plain_failure (adapter k)) ->
  attempts_made (fst (apiConnectorWithRetry B method url config adapter))
    = RETRY_ATTEMPTS (getCurrentConfig (environment_of B)) /\
  exists e0 e,
    adapter (RETRY_ATTEMPTS (getCurrentConfig (environment_of B)))
      = Failed e0 /\
    snd (apiConnectorWithRetry B method url config adapter)
      = Throw (Some e) /\
    message e = message e0 /\ code e = code e0 /\ corsError e = false /\
    networkError e
      = networkError e0 || CORSErrorHandler.isNetworkError e0.
Proof.
  intros Hall. unfold apiConnectorWithRetry.
  set (n := RETRY_ATTEMPTS (getCurrentConfig (environment_of B))).
  assert (Hn : 1 <= n) by (subst n; destruct (budget_cases B); lia).
  rewrite (@retryWith_all_retried B method url config adapter n Hn).
  - simpl. split; [rewrite attempts_made_schedule; lia|].
    destruct (plain_failure_call B method url config _ (Hall n))
      as [e0 [e [H0 [He [_ Hrest]]]]].
    exists e0, e. auto.
  - intros k _.
    destruct (plain_failure_call B method url config _ (Hall k))
      as [e0 [e [H0 [He [Hnr _]]]]].
    exists e. auto.
Qed.

Lemma plain_failures_use_budget_witness :
  attempts_made
    (fst (apiConnectorWithRetry (browser_at loc_other) "GET"
            "https://beejalms.onrender.com/health" no_config
            (fun _ => Failed axios_timeout_error)))
  = 2.
Proof.
  apply (proj1 (@plain_failures_use_budget (browser_at loc_other) "GET"
                  "https://beejalms.onrender.com/health" no_config
                  (fun _ => Failed axios_timeout_error)
                  (fun _ => conj eq_refl (conj eq_refl eq_refl)))).
Defined.

Lemma bad_status_not_cors_5xx (rc : RequestConfig) (r : Response) :
  500 <= status r <= 599 ->
  CORSErrorHandler.isCORSError (bad_status_error rc r) = false.
Proof.
  intros Hr.
  assert (Hall :
    forallb (fun i =>
      negb (CORSErrorHandler.isCORSError
              (bad_status_error rc
                 (response_with (500 + Z.of_nat i) EmptyString EmptyString))))
      (seq 0 100) = true) by (vm_compute; reflexivity).
  rewrite forallb_forall in Hall.
  specialize (Hall (Z.to_nat (status r - 500))).
  rewrite in_seq in Hall.
  replace (500 + Z.of_nat (Z.to_nat (status r - 500))) with (status r)
    in Hall by lia.
  apply negb_true_iff in Hall; [|lia].
  unfold CORSErrorHandler.isCORSError, bad_status_error in *; simpl in *.
  exact Hall.
Qed.

Lemma server_error_call (B : Browser) (method url : string)
      (o : AdapterOutcome) :
  server_error o ->
  exists r e,
    o = Responded r /\
    apiConnector B method url no_config o = Throw (Some e) /\
    notRetried e = false /\ response e = Some r.
Proof.
  destruct o as [r | e0]; simpl; [|intros []].
  intros Hr. unfold apiConnector, axiosInstance, settle; simpl.
  replace (status r =? 0) with false by (symmetry; apply Z.eqb_neq; lia).
  replace (default_validateStatus (status r)) with false.
  2:{ unfold default_validateStatus. symmetry.
      apply andb_false_iff; right. apply Z.ltb_ge; lia. }
  simpl.
  match goal with
  | |- context [onResponseError B ?err] =>
      destruct (@onResponseError_not_cors B err
                  (bad_status_not_cors_5xx _ r Hr))
        as [e [He [_ [_ [Hresp [Hco _]]]]]]
  end.
  exists r, e. split; [reflexivity|]. split; [exact He|].
  simpl in Hresp, Hco. split; [|exact Hresp].
  unfold notRetried. rewrite Hco, Hresp. simpl.
  replace (status r <? 500) with false by (symmetry; apply Z.ltb_ge; lia).
  apply andb_false_r.
Qed.

(** X6. A response with a status in [500,599] is a retryable failure: when
    the server answers every attempt that way, [apiConnectorWithRetry]
    (called without extra config) uses its whole budget and throws the
    error that carries the last response. *)
Theorem server_errors_use_budget
        (B : Browser) (method url : string)
        (adapter : Z -> AdapterOutcome) :
  (forall k, server_error (adapter k)) ->
  attempts_made (fst (apiConnectorWithRetry B method url no_config adapter))
    = RETRY_ATTEMPTS (getCurrentConfig (environment_of B)) /\
  exists r e,
    adapter (RETRY_ATTEMPTS (getCurrentConfig (environment_of B)))
      = Responded r /\
    snd (apiConnectorWithRetry B method url no_config adapter)
      = Throw (Some e) /\
    response e = Some r.
Proof.
  intros Hall. unfold apiConnectorWithRetry.
  set (n := RETRY_ATTEMPTS (getCurrentConfig (environment_of B))).
  assert (Hn : 1 <= n) by (subst n; destruct (budget_cases B); lia).
  rewrite (@retryWith_all_retried B method url no_config adapter n Hn).
  - simpl. split; [rewrite attempts_made_schedule; lia|].
    destruct (server_error_call B method url _ (Hall n))
      as [r [e [H0 [He [_ Hresp]]]]].
    exists r, e. auto.
  - intros k _.
    destruct (server_error_call B method url _ (Hall k))
      as [r [e [H0 [He [Hnr _]]]]].
    exists e. auto.
Qed.

Lemma server_errors_use_budget_witness :
  attempts_made
    (fst (apiConnectorWithRetry (browser_at loc_local) "GET"
            "http://localhost:4000/health" no_config
            (fun _ => Responded unavailable)))
  = 3.
Proof.
  refine (proj1 (@server_errors_use_budget (browser_at loc_local) "GET"
                   "http://localhost:4000/health"
                   (fun _ => Responded unavailable) _)).
  intros k. simpl. lia.
Defined.

(** ** The fetch wrappers *)

Lemma corsAwareFetch_result (B : Browser) (net : Transport) (t : Timers) :
  fst (corsAwareFetch B net t)
  = if latency net <=? TIMEOUT (getCurrentConfig (environment_of B)) then
      match outcome net with
      | Resolved r => Normal r
      | Rejected e =>
          if String.eqb (name e) "AbortError"
          then Throw (Some (Error (timeout_message
                                     (getCurrentConfig (environment_of B)))))
          else Throw (Some e)
      end
    else Throw (Some (Error (timeout_message
                               (getCurrentConfig (environment_of B))))).
Proof.
  unfold corsAwareFetch, setTimeout, await_fetch_abortable, due_of.
  cbn [armed find fst snd now]. rewrite Nat.eqb_refl. cbn [snd].
  replace (now t + latency net
             <=? now t + TIMEOUT (getCurrentConfig (environment_of B)))
    with (latency net <=? TIMEOUT (getCurrentConfig (environment_of B))).
  2:{ destruct (Z.leb_spec (latency net)
                  (TIMEOUT (getCurrentConfig (environment_of B))));
      symmetry; [apply Z.leb_le | apply Z.leb_gt]; lia. }
  destruct (latency net <=? TIMEOUT (getCurrentConfig (environment_of B))).
  - destruct (outcome net) as [r | e]; simpl; [reflexivity|].
    destruct (String.eqb (name e) "AbortError"); reflexivity.
  - reflexivity.
Qed.

(** X8. When the transport settles within the configured [TIMEOUT],
    [corsAwareFetch] hands its outcome on: a response is returned as it is,
    whatever its status, and a rejection is rethrown unchanged, except one
    named [AbortError], which is reported as a timeout; the clock has then
    advanced by the latency of the transport. *)
Theorem corsAwareFetch_in_time
        (B : Browser) (net : Transport) (t : Timers) :
  latency net <= TIMEOUT (getCurrentConfig (environment_of B)) ->
  fst (corsAwareFetch B net t)
    = match outcome net with
      | Resolved r => Normal r
      | Rejected e =>
          if String.eqb (name e) "AbortError"
          then Throw (Some (Error (timeout_message
                                     (getCurrentConfig (environment_of B)))))
          else Throw (Some e)
      end /\
  now (snd (corsAwareFetch B net t)) = now t + latency net.
Proof.
  intros Hfast. split.
  - rewrite corsAwareFetch_result.
    replace (latency net <=? TIMEOUT (getCurrentConfig (environment_of B)))
      with true by (symmetry; apply Z.leb_le; lia).
    reflexivity.
  - unfold corsAwareFetch, setTimeout, await_fetch_abortable, due_of.
    cbn [armed find fst snd now]. rewrite Nat.eqb_refl. cbn [snd].
    replace (now t + latency net
               <=? now t + TIMEOUT (getCurrentConfig (environment_of B)))
      with true by (symmetry; apply Z.leb_le; lia).
    destruct (outcome net) as [r | e]; simpl; [reflexivity|].
    destruct (String.eqb (name e) "AbortError"); reflexivity.
Qed.

Lemma corsAwareFetch_in_time_witness :
  fst (corsAwareFetch (browser_at loc_local)
         {| latency := 120; outcome := Resolved not_found |} no_timers)
    = Normal not_found /\
  now (snd (corsAwareFetch (browser_at loc_local)
              {| latency := 120; outcome := Resolved not_found |} no_timers))
    = 0 + 120.
Proof.
  apply (@corsAwareFetch_in_time (browser_at loc_local)
           {| latency := 120; outcome := Resolved not_found |} no_timers).
  simpl. lia.
Defined.

(** X10. [performHealthCheck] never throws. It reports [success: true]
    exactly when the transport answers within the configured [TIMEOUT] with
    a status in [200,299]; when the transport is slower, it reports the
    timeout message as its [error]; and it always names the URL
    [{BASE_URL}/health]. *)
Theorem performHealthCheck_report
        (B : Browser) (net : Transport) (t : Timers) :
  exists h,
    fst (performHealthCheck B net t) = Normal h /\
    h_url h
      = String.append (BASE_URL (getCurrentConfig (environment_of B)))
                      "/health" /\
    (h_success h = true <->
     latency net <= TIMEOUT (getCurrentConfig (environment_of B)) /\
     exists r, outcome net = Resolved r /\ ok r = true) /\
    (TIMEOUT (getCurrentConfig (environment_of B)) < latency net ->
     h_error h
       = Some (timeout_message (getCurrentConfig (environment_of B)))).
Proof.
  unfold performHealthCheck.
  pose proof (corsAwareFetch_result B net t) as Hres.
  destruct (corsAwareFetch B net t) as [fetched t1]. simpl in Hres.
  subst fetched. cbn [fst].
  destruct (Z.leb_spec (latency net)
              (TIMEOUT (getCurrentConfig (environment_of B)))) as [Hle | Hgt].
  - destruct (outcome net) as [r | e] eqn:Hout.
    + eexists. split; [reflexivity|]. simpl. split; [reflexivity|]. split.
      * split; [intros Hok; split; [lia | eauto]|].
        intros [_ [r' [Hr' Hok]]]. now injection Hr' as <-.
      * intros; lia.
    + destruct (String.eqb (name e) "AbortError");
        (eexists; split; [reflexivity|]); simpl;
        (split; [reflexivity|]);
        (split; [split; [discriminate | intros [_ [r [Hr _]]]; discriminate]
                | intros; lia]).
  - eexists. split; [reflexivity|]. simpl. split; [reflexivity|]. split.
    + split; [discriminate | intros [Hle _]; lia].
    + reflexivity.
Qed.

Lemma performHealthCheck_report_witness :
  exists h,
    fst (performHealthCheck (browser_at loc_local) hanging no_timers)
      = Normal h /\
    h_error h = Some "Request timeout after 10000ms".
Proof.
  destruct (performHealthCheck_report (browser_at loc_local) hanging
                                      no_timers)
    as [h [Hrun [_ [_ Hslow]]]].
  exists h. split; [exact Hrun|]. apply Hslow. simpl. lia.
Defined.

(** ** The admin probe, continued *)

Lemma testAdminAPI_sent (Json : Type) (JSON_parse : string -> option Json)
      (B : Browser) (tok : string) (fetched : FetchOutcome) :
  tok <> EmptyString ->
  testAdminAPI JSON_parse B (Some tok) fetched
  = ([{| req_method := "GET"; req_url := admin_url B;
         req_authorization := Some (String.append "Bearer " tok) |}],
     snd (testAdminAPI JSON_parse B (Some tok) fetched)).
Proof.
  intros Htok. destruct tok as [|c tok]; [contradiction|]. reflexivity.
Qed.

Lemma testAdminAPI_resolved (Json : Type) (JSON_parse : string -> option Json)
      (B : Browser) (tok : string) (r : Response) :
  tok <> EmptyString ->
  ok r = true ->
  snd (testAdminAPI JSON_parse B (Some tok) (Resolved r))
  = match JSON_parse (body r) with
    | Some data =>
        Normal {| ar_success := true; ar_error := None;
                  ar_data := Some data; ar_status := Some (status r);
                  ar_rawResponse := None; ar_type := None |}
    | None =>
        Normal {| ar_success := false;
                  ar_error := Some "Invalid JSON response";
                  ar_data := None; ar_status := None;
                  ar_rawResponse := Some (body r); ar_type := None |}
    end.
Proof.
  intros Htok Hok. destruct tok as [|c tok]; [contradiction|].
  unfold testAdminAPI. cbn [truthy String.eqb negb snd await_fetch bind
                            try_catch].
  rewrite Hok. destruct (JSON_parse (body r)); reflexivity.
Qed.

(** Every completion of [testAdminAPI] other than the one above reports
    failure or is a throw. *)
Lemma testAdminAPI_failure (Json : Type) (JSON_parse : string -> option Json)
      (B : Browser) (tok : string) (fetched : FetchOutcome)
      (res : AdminResult Json) :
  tok <> EmptyString ->
  snd (testAdminAPI JSON_parse B (Some tok) fetched) = Normal res ->
  ar_success res = true ->
  exists r, fetched = Resolved r /\ ok r = true.
Proof.
  intros Htok. destruct tok as [|c tok]; [contradiction|].
  unfold testAdminAPI. cbn [truthy String.eqb negb snd].
  destruct fetched as [r | e]; cbn [await_fetch bind try_catch].
  - destruct (ok r) eqn:Hok; [eauto|].
    unfold CORSErrorHandler.logCORSDebugInfo, CORSErrorHandler.new_URL_origin.
    destruct ((status r =? 0) || String.eqb (body r) "");
      [destruct (URL_origin B _)|]; simpl;
      intros H; injection H as <-; discriminate.
  - unfold get. cbn [bind].
    unfold CORSErrorHandler.logCORSDebugInfo, CORSErrorHandler.new_URL_origin.
    destruct (CORSErrorHandler.isCORSError e);
      [destruct (URL_origin B _)|]; simpl;
      try discriminate; intros H; injection H as <-; discriminate.
Qed.

(** X11. With a non-empty token, [testAdminAPI] reports [success: true]
    exactly when the response has a status in [200,299] and its body parses
    as JSON, and then returns the parsed data and the status; a 2xx
    response whose body does not parse gives [success: false] with the
    error [Invalid JSON response] and the raw body. *)
Theorem testAdminAPI_success
        (Json : Type) (JSON_parse : string -> option Json)
        (B : Browser) (tok : string) (fetched : FetchOutcome) :
  tok <> EmptyString ->
  (forall res : AdminResult Json,
     snd (testAdminAPI JSON_parse B (Some tok) fetched) = Normal res ->
     ar_success res = true ->
     exists r data,
       fetched = Resolved r /\ ok r = true /\
       JSON_parse (body r) = Some data /\
       ar_data res = Some data /\ ar_status res = Some (status r)) /\
  (forall r data,
     fetched = Resolved r -> ok r = true ->
     JSON_parse (body r) = Some data ->
     exists res,
       snd (testAdminAPI JSON_parse B (Some tok) fetched) = Normal res /\
       ar_success res = true /\ ar_data res = Some data /\
       ar_status res = Some (status r)) /\
  (forall r,
     fetched = Resolved r -> ok r = true ->
     JSON_parse (body r) = None ->
     exists res,
       snd (testAdminAPI JSON_parse B (Some tok) fetched) = Normal res /\
       ar_success res = false /\
       ar_error res = Some "Invalid JSON response" /\
       ar_rawResponse res = Some (body r)).
Proof.
  intros Htok. split; [|split].
  - intros res Hres Hsucc.
    destruct (testAdminAPI_failure JSON_parse B fetched Htok Hres Hsucc)
      as [r [-> Hok]].
    rewrite (testAdminAPI_resolved JSON_parse B r Htok Hok) in Hres.
    destruct (JSON_parse (body r)) as [data|] eqn:Hparse;
      injection Hres as <-; [|discriminate].
    exists r, data. repeat split; assumption.
  - intros r data -> Hok Hparse.
    rewrite (testAdminAPI_resolved JSON_parse B r Htok Hok), Hparse.
    eexists; repeat split.
  - intros r -> Hok Hparse.
    rewrite (testAdminAPI_resolved JSON_parse B r Htok Hok), Hparse.
    eexists; repeat split.
Qed.

Lemma testAdminAPI_success_witness :
  exists res,
    snd (testAdminAPI parse_braces (browser_at loc_local) (Some "abc")
           (Resolved (response_with 200 "OK" "{}"))) = Normal res /\
    ar_success res = true /\ ar_data res = Some tt /\
    ar_status res = Some 200.
Proof.
  assert (Htok : "abc" <> EmptyString) by discriminate.
  apply (proj1 (proj2 (@testAdminAPI_success unit parse_braces
                         (browser_at loc_local) "abc"
                         (Resolved (response_with 200 "OK" "{}")) Htok))
               (response_with 200 "OK" "{}") tt);
    reflexivity.
Defined.

(** X12. With a non-empty token, [testAdminAPI] sends exactly one request,
    a GET to the admin endpoint carrying [Bearer <token>]. It returns
    normally whenever the endpoint URL has an origin; the only error it can
    throw is the [TypeError] of [new URL], while logging a rejected fetch
    that [isCORSError] recognises. *)
Theorem testAdminAPI_one_request
        (Json : Type) (JSON_parse : string -> option Json)
        (B : Browser) (tok : string) (fetched : FetchOutcome) :
  tok <> EmptyString ->
  fst (testAdminAPI JSON_parse B (Some tok) fetched)
    = [{| req_method := "GET"; req_url := admin_url B;
          req_authorization := Some (String.append "Bearer " tok) |}] /\
  (URL_origin B (admin_url B) <> None ->
   exists res,
     snd (testAdminAPI JSON_parse B (Some tok) fetched) = Normal res) /\
  (forall v,
     snd (testAdminAPI JSON_parse B (Some tok) fetched) = Throw v ->
     v = Some (TypeError "Failed to construct 'URL': Invalid URL") /\
     exists e,
       fetched = Rejected e /\ CORSErrorHandler.isCORSError e = true).
Proof.
  intros Htok. split.
  - now rewrite (testAdminAPI_sent JSON_parse B fetched Htok).
  - destruct tok as [|c tok]; [contradiction|].
    unfold testAdminAPI. cbn [truthy String.eqb negb snd].
    fold (admin_url B).
    unfold CORSErrorHandler.logCORSDebugInfo, CORSErrorHandler.new_URL_origin.
    destruct fetched as [r | e]; cbn [await_fetch bind try_catch].
    + destruct (ok r);
        [destruct (JSON_parse (body r))
        |destruct ((status r =? 0) || String.eqb (body r) "");
           [destruct (URL_origin B (admin_url B))|]];
        simpl; (split;
                [intros _; eexists; reflexivity
                |intros v Hv; discriminate Hv]).
    + unfold get. cbn [bind].
      destruct (CORSErrorHandler.isCORSError e) eqn:Hcors;
        [destruct (URL_origin B (admin_url B))|]; simpl.
      * split; [intros _; eexists; reflexivity
               |intros v Hv; discriminate Hv].
      * split; [intros H; contradiction|].
        intros v Hv. injection Hv as <-. eauto.
      * split; [intros _; eexists; reflexivity
               |intros v Hv; discriminate Hv].
Qed.

Lemma testAdminAPI_one_request_witness :
  fst (testAdminAPI parse_braces (browser_at loc_local) (Some "abc")
         (Rejected failed_to_fetch))
    = [{| req_method := "GET";
          req_url := "http://localhost:4000/api/v1/admin/users";
          req_authorization := Some "Bearer abc" |}] /\
  exists res,
    snd (testAdminAPI parse_braces (browser_at loc_local) (Some "abc")
           (Rejected failed_to_fetch)) = Normal res.
Proof.
  assert (Htok : "abc" <> EmptyString) by discriminate.
  split.
  - apply (proj1 (@testAdminAPI_one_request unit parse_braces
                    (browser_at loc_local) "abc"
                    (Rejected failed_to_fetch) Htok)).
  - apply (proj1 (proj2 (@testAdminAPI_one_request unit parse_braces
                           (browser_at loc_local) "abc"
                           (Rejected failed_to_fetch) Htok))).
    discriminate.
Defined.

(** ** The quick diagnostic, continued *)

Lemma testCORSConnection_result (B : Browser) (baseUrl : string)
      (fetched : FetchOutcome) :
  CORSErrorHandler.testCORSConnection B baseUrl fetched
  = match fetched with
    | Resolved _ => Normal true
    | Rejected _ =>
        match URL_origin B baseUrl with
        | Some _ => Normal false
        | None =>
            Throw (Some (TypeError "Failed to construct 'URL': Invalid URL"))
        end
    end.
Proof.
  unfold CORSErrorHandler.testCORSConnection,
    CORSErrorHandler.logCORSDebugInfo, CORSErrorHandler.new_URL_origin.
  destruct fetched as [r | e]; simpl; [reflexivity|].
  destruct (URL_origin B baseUrl); reflexivity.
Qed.

(** X13. In the report of [quickDiagnostic] the [environment] entry always
    passes, and the [cors] entry passes exactly when the bare fetch of the
    base URL resolved: a response of any status counts, with details
    [CORS connection successful]; a rejected fetch gives [passed: false]. *)
Theorem quickDiagnostic_cors_entry
        (B : Browser) (corsFetch : FetchOutcome) (adapter : AdapterOutcome) :
  passed_of "environment" (quickDiagnostic B corsFetch adapter) = Some true /\
  passed_of "cors" (quickDiagnostic B corsFetch adapter)
    = Some (is_resolved corsFetch) /\
  (is_resolved corsFetch = true ->
   details_of "cors" (quickDiagnostic B corsFetch adapter)
     = Some (DetailsText (Some "CORS connection successful"))).
Proof.
  unfold quickDiagnostic.
  destruct (testAPIConnectivity_returns B adapter) as [t [-> _]].
  rewrite testCORSConnection_result.
  destruct corsFetch as [r | e]; simpl is_resolved.
  - repeat split.
  - destruct (URL_origin B _); repeat split; discriminate.
Qed.

Lemma quickDiagnostic_cors_entry_witness :
  details_of "cors"
    (quickDiagnostic (browser_at loc_local) (Resolved unavailable)
                     (Responded health_ok))
  = Some (DetailsText (Some "CORS connection successful")).
Proof.
  apply (proj2 (proj2 (quickDiagnostic_cors_entry (browser_at loc_local)
                         (Resolved unavailable) (Responded health_ok)))).
  reflexivity.
Defined.

Lemma quickDiagnosticWith_api_details (B : Browser) (c : bool + JsError)
      (t : ApiTest) :
  details_of "apiConnectivity"
             (quickDiagnosticWith B (check_outcome c) (Normal t))
  = Some (DetailsText (Some
      (if success t then "API reachable"
       else or_else match test_error t with
                    | Some e => message e
                    | None => None
                    end "API unreachable"))).
Proof. destruct c as [b | e]; reflexivity. Qed.

(** X14. When the health request fails without a response, in a way
    [isCORSError] does not recognise, the [apiConnectivity] entry of
    [quickDiagnostic] does not pass and its details are the message of the
    transport's error, or [API unreachable] when that message is missing or
    empty. *)
Theorem quickDiagnostic_api_failure_details
        (B : Browser) (corsFetch : FetchOutcome) (e0 : JsError) :
  plain_failure (Failed e0) ->
  passed_of "apiConnectivity" (quickDiagnostic B corsFetch (Failed e0))
    = Some false /\
  details_of "apiConnectivity" (quickDiagnostic B corsFetch (Failed e0))
    = Some (DetailsText (Some (or_else (message e0) "API unreachable"))).
Proof.
  intros Hplain.
  destruct (plain_failure_call B "GET"
              (String.append (BASE_URL (getCurrentConfig (environment_of B)))
                             "/health") no_config _ Hplain)
    as [e0' [e [H0 [He [_ [Hm _]]]]]].
  injection H0 as <-.
  unfold quickDiagnostic, testAPIConnectivity. rewrite He. simpl try_catch.
  destruct (testCORSConnection_cases B
              (BASE_URL (getCurrentConfig (environment_of B))) corsFetch)
    as [c ->].
  rewrite quickDiagnosticWith_apiConnectivity,
    quickDiagnosticWith_api_details. simpl. rewrite Hm. split; reflexivity.
Qed.

Lemma quickDiagnostic_api_failure_details_witness :
  details_of "apiConnectivity"
    (quickDiagnostic (browser_at loc_local) (Resolved health_ok)
                     (Failed network_error))
  = Some (DetailsText (Some "Network Error")).
Proof.
  apply (proj2 (@quickDiagnostic_api_failure_details (browser_at loc_local)
                  (Resolved health_ok) network_error
                  (conj eq_refl (conj eq_refl eq_refl)))).
Defined.

(** ** The error classifiers *)

(** X15. [isCORSError] answers [true] exactly for the errors whose message
    contains one of its three phrases, spelled exactly, and for the errors
    that have a request, no response and no error code; nothing else is
    classified as a CORS error. *)
Theorem isCORSError_exact (error : JsError) :
  CORSErrorHandler.isCORSError error = true <->
  (exists m phrase,
     message error = Some m /\
     In phrase CORSErrorHandler.cors_phrases /\ contains m phrase) \/
  (response error = None /\ request error = true /\
   truthy (code error) = false).
Proof.
  unfold CORSErrorHandler.isCORSError, CORSErrorHandler.cors_phrases.
  rewrite !orb_true_iff, !andb_true_iff, !negb_true_iff.
  assert (Hinc : forall phrase,
    opt_includes (message error) phrase = true <->
    exists m, message error = Some m /\ contains m phrase).
  { intros phrase. destruct (message error) as [m|]; simpl.
    - rewrite includes_contains. split; [eauto|].
      intros [m' [Hm Hc]]. now injection Hm as ->.
    - split; [discriminate | intros [m [Hm _]]; discriminate]. }
  rewrite !Hinc. split.
  - intros [[[[m [Hm Hc]] | [m [Hm Hc]]] | [m [Hm Hc]]] | [[Hr Hq] Hc]].
    + left. exists m, "CORS". split; [exact Hm | split; [simpl; tauto | exact Hc]].
    + left. exists m, "Access-Control-Allow-Origin". split; [exact Hm | split; [simpl; tauto | exact Hc]].
    + left. exists m, "Cross-Origin Request Blocked". split; [exact Hm | split; [simpl; tauto | exact Hc]].
    + right. destruct (response error); [discriminate|]. auto.
  - intros [[m [phrase [Hm [Hin Hc]]]] | [Hr [Hq Hc]]].
    + destruct Hin as [<- | [<- | [<- | []]]]; eauto 10.
    + right. rewrite Hr. auto.
Qed.

(** X16. [isNetworkError] answers [true] exactly for the errors whose code
    is [NETWORK_ERROR] or whose message contains [Network Error],
    [ERR_NETWORK] or [ERR_FAILED]; in particular the code [ERR_NETWORK]
    alone, with another message, is not recognised. *)
Theorem isNetworkError_exact (error : JsError) :
  CORSErrorHandler.isNetworkError error = true <->
  code error = Some "NETWORK_ERROR" \/
  (exists m phrase,
     message error = Some m /\
     In phrase ["Network Error"; "ERR_NETWORK"; "ERR_FAILED"] /\
     contains m phrase).
Proof.
  unfold CORSErrorHandler.isNetworkError.
  rewrite !orb_true_iff.
  assert (Hinc : forall phrase,
    opt_includes (message error) phrase = true <->
    exists m, message error = Some m /\ contains m phrase).
  { intros phrase. destruct (message error) as [m|]; simpl.
    - rewrite includes_contains. split; [eauto|].
      intros [m' [Hm Hc]]. now injection Hm as ->.
    - split; [discriminate | intros [m [Hm _]]; discriminate]. }
  assert (Hcode : opt_eqb (code error) "NETWORK_ERROR" = true <->
                  code error = Some "NETWORK_ERROR").
  { destruct (code error) as [c|]; simpl.
    - rewrite String.eqb_eq. split; [congruence|].
      intros H; now injection H.
    - split; discriminate. }
  rewrite !Hinc, Hcode. split.
  - intros [[[H | [m [Hm Hc]]] | [m [Hm Hc]]] | [m [Hm Hc]]].
    + now left.
    + right. exists m, "Network Error". split; [exact Hm | split; [simpl; tauto | exact Hc]].
    + right. exists m, "ERR_NETWORK". split; [exact Hm | split; [simpl; tauto | exact Hc]].
    + right. exists m, "ERR_FAILED". split; [exact Hm | split; [simpl; tauto | exact Hc]].
  - intros [H | [m [phrase [Hm [Hin Hc]]]]]; [auto|].
    destruct Hin as [<- | [<- | [<- | []]]]; eauto 10.
Qed.

(** ** The request [apiConnector] builds *)

Section ObjFacts.

Import ApiConnectorRequest.

Lemma obj_get_set_eq (k v : string) (obj : Obj) :
  obj_get k (obj_set k v obj) = Some v.
Proof.
  induction obj as [|[k' v'] obj IH]; simpl.
  - now rewrite String.eqb_refl.
  - destruct (String.eqb k' k) eqn:E; simpl; rewrite E; auto.
Qed.

Lemma obj_get_set_neq (k k' v : string) (obj : Obj) :
  k' <> k -> obj_get k (obj_set k' v obj) = obj_get k obj.
Proof.
  intros Hne. induction obj as [|[k0 v0] obj IH]; simpl.
  - now apply String.eqb_neq in Hne as ->.
  - destruct (String.eqb k0 k') eqn:E; simpl.
    + apply String.eqb_eq in E; subst k0.
      now apply String.eqb_neq in Hne as ->.
    + destruct (String.eqb k0 k); auto.
Qed.

Lemma obj_get_absent (k : string) (obj : Obj) :
  ~ In k (map fst obj) -> obj_get k obj = None.
Proof.
  induction obj as [|[k' v'] obj IH]; simpl; [reflexivity|].
  intros Hnot. destruct (String.eqb k' k) eqn:E.
  - apply String.eqb_eq in E. tauto.
  - apply IH. tauto.
Qed.

(** A property of [{...base, ...extra}] is that of [extra] when it has
    one, else that of [base]. *)
Lemma obj_get_spread (k : string) (extra : Obj) :
  NoDup (map fst extra) ->
  forall base,
    obj_get k (obj_spread base extra)
    = match obj_get k extra with
      | Some v => Some v
      | None => obj_get k base
      end.
Proof.
  unfold obj_spread.
  induction extra as [|[k' v'] extra IH]; intros Hnd base; simpl;
    [reflexivity|].
  inversion Hnd as [|? ? Hnot Hnd']; subst.
  rewrite (IH Hnd'). simpl in Hnot.
  destruct (String.eqb k' k) eqn:E.
  - apply String.eqb_eq in E; subst k'.
    rewrite (obj_get_absent _ _ Hnot). apply obj_get_set_eq.
  - apply String.eqb_neq in E.
    destruct (obj_get k extra); [reflexivity|].
    now apply obj_get_set_neq.
Qed.

Lemma defaultHeaders_cases (bodyData : option BodyData)
      (headers : option Obj) :
  defaultHeaders bodyData headers
  = ((if isFormData bodyData then []
      else [("Content-Type", "application/json")])
     ++ (if truthy (authorization_of headers)
         then [("Authorization",
                match authorization_of headers with
                | Some a => a
                | None => EmptyString
                end)]
         else []))%list.
Proof.
  unfold defaultHeaders.
  destruct (isFormData bodyData), (truthy (authorization_of headers));
    reflexivity.
Qed.

Lemma defaultHeaders_get (bodyData : option BodyData) (headers : option Obj)
      (k : string) :
  obj_get k (or_empty headers) = None ->
  obj_get k (defaultHeaders bodyData headers)
  = if String.eqb k "Content-Type" && negb (isFormData bodyData)
    then Some "application/json" else None.
Proof.
  intros Habsent. rewrite defaultHeaders_cases.
  assert (Hauth : String.eqb "Authorization" k = true ->
                  truthy (authorization_of headers) = false).
  { intros E. apply String.eqb_eq in E; subst k.
    destruct headers as [h|]; simpl in *; [now rewrite Habsent|reflexivity]. }
  rewrite (String.eqb_sym k "Content-Type").
  destruct (isFormData bodyData); cbn [negb app obj_get];
    rewrite ?andb_false_r, ?andb_true_r.
  - destruct (truthy (authorization_of headers)) eqn:Ht; cbn [obj_get];
      [|reflexivity].
    destruct (String.eqb "Authorization" k) eqn:E; [|reflexivity].
    specialize (Hauth eq_refl). discriminate.
  - destruct (String.eqb "Content-Type" k) eqn:Ec; [reflexivity|].
    destruct (truthy (authorization_of headers)) eqn:Ht; cbn [obj_get];
      [|reflexivity].
    destruct (String.eqb "Authorization" k) eqn:E; [|reflexivity].
    specialize (Hauth eq_refl). discriminate.
Qed.

End ObjFacts.

(** X17. Unless [config] replaces the headers, each header of the request
    [apiConnector] builds is the caller's header of that name when the
    caller gave one (so an [Authorization] header is passed on unmodified
    and a caller's [Content-Type] wins); the only header added is
    [Content-Type: application/json], and only when the body is not a
    [FormData]. *)
Theorem requestConfig_headers
        (B : Browser) (method url : string)
        (bodyData : option ApiConnectorRequest.BodyData)
        (headers params : option ApiConnectorRequest.Obj)
        (config : ApiConnectorRequest.Overrides) (k : string) :
  ApiConnectorRequest.obj_wf headers ->
  ApiConnectorRequest.o_headers config = None ->
  ApiConnectorRequest.obj_get k
    (ApiConnectorRequest.headers
       (ApiConnectorRequest.requestConfig B method url bodyData headers
                                          params config))
  = match ApiConnectorRequest.obj_get k
            (ApiConnectorRequest.or_empty headers) with
    | Some v => Some v
    | None =>
        if String.eqb k "Content-Type"
           && negb (ApiConnectorRequest.isFormData bodyData)
        then Some "application/json"
        else None
    end.
Proof.
  intros Hwf Hcfg. unfold ApiConnectorRequest.requestConfig.
  cbn [ApiConnectorRequest.headers]. rewrite Hcfg.
  cbn [ApiConnectorRequest.override].
  rewrite (obj_get_spread k _ Hwf).
  destruct (ApiConnectorRequest.obj_get k
              (ApiConnectorRequest.or_empty headers)) eqn:Hget;
    [reflexivity|].
  now apply defaultHeaders_get.
Qed.

Lemma requestConfig_headers_witness :
  ApiConnectorRequest.obj_get "Content-Type"
    (ApiConnectorRequest.headers
       (ApiConnectorRequest.requestConfig (browser_at loc_local) "POST"
          "http://localhost:4000/api/v1/course/create"
          (Some (ApiConnectorRequest.FormData [("thumbnail", "file")]))
          (Some [("Authorization", "Bearer abc")]) None
          ApiConnectorRequest.no_overrides))
  = None.
Proof.
  apply (@requestConfig_headers (browser_at loc_local) "POST"
           "http://localhost:4000/api/v1/course/create"
           (Some (ApiConnectorRequest.FormData [("thumbnail", "file")]))
           (Some [("Authorization", "Bearer abc")]) None
           ApiConnectorRequest.no_overrides "Content-Type").
  - unfold ApiConnectorRequest.obj_wf. simpl.
    repeat constructor; simpl; tauto.
  - reflexivity.
Defined.

(** ** The debug panel and the full diagnostic *)

Lemma environment_name_development (env : Env) :
  String.eqb (Environment.environment (getCurrentConfig env)) "development"
  = isDevelopment env.
Proof.
  unfold getCurrentConfig.
  destruct (isDevelopment env); [|destruct (isProduction env)]; reflexivity.
Qed.

Lemma quickDiagnostic_returns (B : Browser) (corsFetch : FetchOutcome)
      (adapter : AdapterOutcome) :
  exists report,
    quickDiagnostic B corsFetch adapter = Normal report /\
    map fst (tests report) = ["environment"; "cors"; "apiConnectivity"].
Proof.
  unfold quickDiagnostic.
  destruct (testCORSConnection_cases B
              (BASE_URL (getCurrentConfig (environment_of B))) corsFetch)
    as [c ->].
  destruct (testAPIConnectivity_returns B adapter) as [t [-> _]].
  pose proof (quickDiagnosticWith_keys B c (inl t)) as Hkeys.
  simpl check_outcome in Hkeys.
  destruct (quickDiagnosticWith B (check_outcome c) (Normal t))
    as [report | v]; simpl in Hkeys; [|discriminate].
  exists report. split; [reflexivity|]. now injection Hkeys.
Qed.

Lemma guarded_completes (A : Type) (body : Completion A)
      (s : DebugPanel.PanelState) :
  DebugPanel.guarded body s = (Normal tt, DebugPanel.setIsRunning false s).
Proof. unfold DebugPanel.guarded. destruct body; reflexivity. Qed.

(** X19. The handler [runQuickDiagnostic] never throws; afterwards the
    panel is not running, it holds the report of the diagnostic, with its
    three entries, and the other state cells are as before. *)
Theorem runQuickDiagnostic_stores_report
        (B : Browser) (corsFetch : FetchOutcome) (adapter : AdapterOutcome)
        (s : DebugPanel.PanelState) :
  exists report,
    quickDiagnostic B corsFetch adapter = Normal report /\
    map fst (tests report) = ["environment"; "cors"; "apiConnectivity"] /\
    DebugPanel.runQuickDiagnostic B corsFetch adapter s
    = (Normal tt,
       {| DebugPanel.isOpen := DebugPanel.isOpen s;
          DebugPanel.diagnosticResults := Some report;
          DebugPanel.isRunning := false;
          DebugPanel.envInfo := DebugPanel.envInfo s |}).
Proof.
  destruct (quickDiagnostic_returns B corsFetch adapter)
    as [report [Hrun Hkeys]].
  exists report. split; [exact Hrun|]. split; [exact Hkeys|].
  unfold DebugPanel.runQuickDiagnostic. rewrite Hrun, guarded_completes.
  reflexivity.
Qed.

(** X20. The handler [testAPI] does nothing when no token is stored: no
    request is sent and the state is untouched. With a stored token it
    sends exactly one request, the GET to the admin endpoint carrying
    [Bearer <token>], never throws, whatever [testAdminAPI] does, and ends
    with the panel not running. *)
Theorem testAPI_guard
        (Json : Type) (JSON_parse : string -> option Json)
        (B : Browser) (token : option string) (fetched : FetchOutcome)
        (s : DebugPanel.PanelState) :
  (truthy token = false ->
   DebugPanel.testAPI JSON_parse B token fetched s = ([], (Normal tt, s))) /\
  (forall tok,
     token = Some tok -> tok <> EmptyString ->
     DebugPanel.testAPI JSON_parse B token fetched s
     = ([{| req_method := "GET"; req_url := admin_url B;
            req_authorization := Some (String.append "Bearer " tok) |}],
        (Normal tt,
         {| DebugPanel.isOpen := DebugPanel.isOpen s;
            DebugPanel.diagnosticResults := DebugPanel.diagnosticResults s;
            DebugPanel.isRunning := false;
            DebugPanel.envInfo := DebugPanel.envInfo s |}))).
Proof.
  split.
  - intros Hfalsy. unfold DebugPanel.testAPI. now rewrite Hfalsy.
  - intros tok -> Htok. unfold DebugPanel.testAPI.
    replace (truthy (Some tok)) with true.
    2:{ simpl. symmetry. apply negb_true_iff.
        now apply String.eqb_neq. }
    cbn [negb].
    rewrite (testAdminAPI_sent JSON_parse B fetched Htok), guarded_completes.
    reflexivity.
Qed.

Lemma testAPI_guard_witness :
  DebugPanel.testAPI parse_braces (browser_at loc_local) None
                     (Resolved health_ok) DebugPanel.initial
    = ([], (Normal tt, DebugPanel.initial)) /\
  fst (DebugPanel.testAPI parse_braces (browser_at loc_local) (Some "abc")
                          (Rejected failed_to_fetch) DebugPanel.initial)
    = [{| req_method := "GET";
          req_url := admin_url (browser_at loc_local);
          req_authorization := Some (String.append "Bearer " "abc") |}].
Proof.
  split.
  - apply (proj1 (testAPI_guard parse_braces (browser_at loc_local) None
                    (Resolved health_ok) DebugPanel.initial)).
    reflexivity.
  - rewrite (proj2 (testAPI_guard parse_braces (browser_at loc_local)
                      (Some "abc") (Rejected failed_to_fetch)
                      DebugPanel.initial) "abc" eq_refl);
      [reflexivity | discriminate].
Defined.

(** X21. Once the mount effect has stored the environment information, the
    panel is shown exactly when the hostname is [localhost] or [127.0.0.1]
    or the query string contains [debug=true]; before that, only the query
    string counts. *)
Theorem shouldShow_when
        (B : Browser) (s : DebugPanel.PanelState) (search : string) :
  (DebugPanel.shouldShow (DebugPanel.on_mount B s) search = true <->
   is_local (hostname (location B)) \/ contains search "debug=true") /\
  (DebugPanel.envInfo s = None ->
   (DebugPanel.shouldShow s search = true <->
    contains search "debug=true")).
Proof.
  split.
  - unfold DebugPanel.shouldShow, DebugPanel.on_mount; simpl.
    rewrite orb_true_iff, includes_contains,
      (environment_name_development (environment_of B)).
    unfold environment_of. now rewrite isDevelopment_iff.
  - intros Hnone. unfold DebugPanel.shouldShow. rewrite Hnone. simpl.
    apply includes_contains.
Qed.

Lemma shouldShow_when_witness :
  DebugPanel.shouldShow DebugPanel.initial "?debug=true" = true <->
  contains "?debug=true" "debug=true".
Proof.
  apply (proj2 (shouldShow_when (browser_at loc_other) DebugPanel.initial
                  "?debug=true")).
  reflexivity.
Defined.

(** X22. When the module is imported, a run of [quickDiagnostic] is
    scheduled, one second ahead, exactly on the hostnames [localhost] and
    [127.0.0.1]; on any other hostname no timer is armed. *)
Theorem on_import_schedules (B : Browser) (t : Timers) :
  (is_local (hostname (location B)) ->
   armed (ApiDebuggerFull.on_import B t)
     = (next_timer t, now t + 1000) :: armed t) /\
  (~ is_local (hostname (location B)) ->
   ApiDebuggerFull.on_import B t = t).
Proof.
  unfold ApiDebuggerFull.on_import.
  rewrite (environment_name_development (environment_of B)).
  pose proof (isDevelopment_iff (location B)) as Hd.
  unfold environment_of.
  destruct (isDevelopment (getEnvironment (location B))); split; intros H;
    try reflexivity; exfalso; intuition congruence.
Qed.

Lemma on_import_schedules_witness :
  armed (ApiDebuggerFull.on_import (browser_at loc_local) no_timers)
    = [(0%nat, 0 + 1000)] /\
  ApiDebuggerFull.on_import (browser_at loc_vercel) no_timers = no_timers.
Proof.
  split.
  - apply (proj1 (on_import_schedules (browser_at loc_local) no_timers)).
    left; reflexivity.
  - apply (proj2 (on_import_schedules (browser_at loc_vercel) no_timers)).
    intros [H | H]; discriminate H.
Defined.

Lemma performHealthCheck_timers (B : Browser) (net : Transport) (t : Timers) :
  snd (performHealthCheck B net t) = snd (corsAwareFetch B net t).
Proof.
  unfold performHealthCheck. now destruct (corsAwareFetch B net t).
Qed.

(** X23. [debugAPIIssues] returns its report whenever the stored auth state
    parses to something other than [null] and the CORS test does not throw
    (the fetch resolved, or the base URL has an origin): the report's
    [corsTest] tells whether the fetch resolved, and the timer of the
    health check is no longer pending. The result never depends on what
    the health check and the connectivity test find. A stored auth state
    that does not parse makes it throw before any timer is armed. *)
Theorem debugAPIIssues_outcome
        (Json : Type) (JSON_parse : string -> option Json)
        (JSON_is_null : Json -> bool) (getItem : string -> option string)
        (B : Browser) (corsFetch : FetchOutcome) (t : Timers) :
  (forall (healthNet healthNet' : Transport)
          (adapter adapter' : AdapterOutcome),
     fst (ApiDebuggerFull.debugAPIIssues JSON_parse JSON_is_null getItem B
            corsFetch healthNet adapter t)
     = fst (ApiDebuggerFull.debugAPIIssues JSON_parse JSON_is_null getItem B
              corsFetch healthNet' adapter' t)) /\
  (forall (healthNet : Transport) (adapter : AdapterOutcome)
          (authState : Json),
     JSON_parse (or_else (getItem "persist:auth") "{}") = Some authState ->
     JSON_is_null authState = false ->
     is_resolved corsFetch = true \/
     URL_origin B (BASE_URL (getCurrentConfig (environment_of B))) <> None ->
     exists report,
       fst (ApiDebuggerFull.debugAPIIssues JSON_parse JSON_is_null getItem B
              corsFetch healthNet adapter t) = Normal report /\
       ApiDebuggerFull.dbg_corsTest report = is_resolved corsFetch /\
       info_config (ApiDebuggerFull.dbg_environment report)
         = getCurrentConfig (environment_of B) /\
       ~ pending (next_timer t)
           (snd (ApiDebuggerFull.debugAPIIssues JSON_parse JSON_is_null
                   getItem B corsFetch healthNet adapter t))) /\
  (forall (healthNet : Transport) (adapter : AdapterOutcome),
     JSON_parse (or_else (getItem "persist:auth") "{}") = None ->
     ApiDebuggerFull.debugAPIIssues JSON_parse JSON_is_null getItem B
       corsFetch healthNet adapter t
     = (Throw (Some (ApiDebuggerFull.SyntaxError "Unexpected token in JSON")),
        t)).
Proof.
  split; [|split].
  - intros healthNet healthNet' adapter adapter'.
    unfold ApiDebuggerFull.debugAPIIssues.
    destruct (ApiDebuggerFull.read_auth_state _ _ _); [|reflexivity].
    destruct (CORSErrorHandler.testCORSConnection _ _ _); [|reflexivity].
    destruct (performHealthCheck B healthNet t),
      (performHealthCheck B healthNet' t). reflexivity.
  - intros healthNet adapter authState Hparse Hnull Hcors.
    pose proof (performHealthCheck_timers B healthNet t) as Htimers.
    unfold ApiDebuggerFull.debugAPIIssues, ApiDebuggerFull.read_auth_state.
    rewrite Hparse, Hnull, testCORSConnection_result.
    destruct (performHealthCheck B healthNet t) as [h t1].
    simpl in Htimers. subst t1.
    assert (Hclear : ~ pending (next_timer t)
                       (snd (corsAwareFetch B healthNet t))).
    { destruct (corsAwareFetch_clears B healthNet t) as [t2 ->].
      apply clearTimeout_not_pending. }
    destruct corsFetch as [r | e]; simpl is_resolved.
    + eexists. repeat split. exact Hclear.
    + destruct Hcors as [Hcors | Hcors]; [discriminate|].
      destruct (URL_origin B _); [|contradiction].
      eexists. repeat split. exact Hclear.
  - intros healthNet adapter Hparse.
    unfold ApiDebuggerFull.debugAPIIssues, ApiDebuggerFull.read_auth_state.
    now rewrite Hparse.
Qed.

Lemma debugAPIIssues_outcome_witness :
  (exists report,
     fst (ApiDebuggerFull.debugAPIIssues parse_state (fun b : bool => b)
            empty_storage (browser_at loc_local)
            (Rejected failed_to_fetch) hanging (Failed network_error)
            no_timers) = Normal report /\
     ApiDebuggerFull.dbg_corsTest report = false) /\
  ApiDebuggerFull.debugAPIIssues parse_state (fun b : bool => b)
    corrupt_storage (browser_at loc_local) (Resolved health_ok) hanging
    (Responded health_ok) no_timers
  = (Throw (Some (ApiDebuggerFull.SyntaxError "Unexpected token in JSON")),
     no_timers).
Proof.
  split.
  - destruct (proj1 (proj2 (debugAPIIssues_outcome parse_state
                              (fun b : bool => b) empty_storage
                              (browser_at loc_local)
                              (Rejected failed_to_fetch) no_timers))
                    hanging (Failed network_error) false)
      as [report [Hrun [Hcors _]]];
      [reflexivity | reflexivity | right; discriminate |].
    exists report. auto.
  - apply (proj2 (proj2 (debugAPIIssues_outcome parse_state
                           (fun b : bool => b) corrupt_storage
                           (browser_at loc_local) (Resolved health_ok)
                           no_timers))).
    reflexivity.
Defined.

(** X24. The handler [runFullDebug] never throws, even when
    [debugAPIIssues] does (a corrupt stored auth state, a CORS test that
    throws), and always ends with the panel not running and its other
    state cells as before. *)
Theorem runFullDebug_completes
        (Json : Type) (JSON_parse : string -> option Json)
        (JSON_is_null : Json -> bool) (getItem : string -> option string)
        (B : Browser) (corsFetch : FetchOutcome) (healthNet : Transport)
        (adapter : AdapterOutcome) (t : Timers)
        (s : DebugPanel.PanelState) :
  fst (DebugPanel.runFullDebug JSON_parse JSON_is_null getItem B corsFetch
         healthNet adapter t s)
  = (Normal tt,
     {| DebugPanel.isOpen := DebugPanel.isOpen s;
        DebugPanel.diagnosticResults := DebugPanel.diagnosticResults s;
        DebugPanel.isRunning := false;
        DebugPanel.envInfo := DebugPanel.envInfo s |}).
Proof.
  unfold DebugPanel.runFullDebug.
  destruct (ApiDebuggerFull.debugAPIIssues _ _ _ _ _ _ _ _) as [result t1].
  cbn [fst]. now rewrite guarded_completes.
Qed.
